(** * Krishi Mitra: offline synchronisation and outbreak clustering

    A shallow embedding of the parts of the application that carry state:

    - [Outbreak]: the [DiseaseOutbreak] model ([addReport], [updateStatus])
      and the handlers of the outbreak routes ([POST /api/outbreaks/report],
      status and treatment updates, [sendOutbreakAlerts]);
    - [Server]: the sync routes of [backend/routes/sync.js] and their
      reconcilers ([syncDiagnosisData], [syncUserData], ...), over the
      [CropDiagnosis] and [User] models;
    - [Client]: the React provider of [src/context/OfflineContext.tsx]
      (IndexedDB stores, connectivity handlers, enqueue, drain, prune).

    The properties follow the definitions, one module of facts per module
    of code. Numbers that JavaScript holds as doubles are rationals ([Q])
    here, so rounding is not modelled; dates are milliseconds since the
    epoch ([Z]). Database calls are total: a lost connection to MongoDB or
    a failing IndexedDB transaction is not modelled. The key constraints of
    IndexedDB are; what Mongoose's casts and validators make of a value is
    a parameter of the sync routes ([Server.Mongoose]). *)

From Stdlib Require Import ZArith QArith Lqa Lia List String Ascii Bool Sorted.
From Stdlib Require Import DecimalString.
From Stdlib Require OrderedTypeEx.
From stdpp Require Import base option gmap strings.
Import ListNotations.

Local Open Scope string_scope.
Local Open Scope list_scope.

(** Dates ([Date], [Date.now()]) as epoch milliseconds. *)
Definition Date := Z.

(** Mongo [ObjectId]s. *)
Definition ObjectId := nat.

Definition day_ms : Z := 24 * 60 * 60 * 1000.

(** Decimal rendering of an integer, as in a template literal. *)
Definition dec (z : Z) : string := NilZero.string_of_int (Z.to_int z).

(** ** Disease outbreaks (the DiseaseOutbreak model and the outbreak routes) *)
Module Outbreak.

Inductive Severity := low | medium | high | critical.
Inductive Status := active | contained | resolved.

(** Position of a level in the schema's enum ['low','medium','high','critical']. *)
Definition rank (s : Severity) : nat :=
  match s with low => 0 | medium => 1 | high => 2 | critical => 3 end.


Record Location := {
  latitude : Q;
  longitude : Q;
  address : string;
  region : string
}.

(** One element of [reportedBy]. [r_affectedArea] is optional in the schema. *)
Record Report := {
  userId : ObjectId;
  r_severity : Severity;
  r_affectedArea : option Q;
  images : list string;
  notes : string
}.

Record Treatment := {
  treatment : string;
  dosage : option string;
  frequency : option string;
  duration : option string;
  recommendedBy : ObjectId
}.

Record Alert := {
  alertType : string;
  recipients : nat;
  message : string
}.

Record DiseaseOutbreak := {
  disease : string;
  crop : string;
  location : Location;
  reportedBy : list Report;
  severity : Severity;
  status : Status;
  affectedArea : Q;
  confirmedCases : nat;
  firstReported : Date;
  lastUpdated : Date;
  treatmentRecommendations : list Treatment;
  alertsSent : list Alert
}.

(** [reportData.affectedArea || 0] *)
Definition area_or_zero (a : option Q) : Q :=
  match a with Some q => q | None => 0%Q end.

(** [diseaseOutbreakSchema.methods.addReport] *)
Definition addReport (this : DiseaseOutbreak) (reportData : Report) (now : Date)
  : DiseaseOutbreak :=
  let reportedBy' := reportedBy this ++ [reportData] in
  let confirmedCases' := length reportedBy' in
  let affectedArea' := (affectedArea this + area_or_zero (r_affectedArea reportData))%Q in
  let severity' :=
    if (20 <=? confirmedCases')%nat || Qle_bool 500 affectedArea' then critical
    else if (10 <=? confirmedCases')%nat || Qle_bool 200 affectedArea' then high
    else if (5 <=? confirmedCases')%nat || Qle_bool 50 affectedArea' then medium
    else severity this in
  {| disease := disease this;
     crop := crop this;
     location := location this;
     reportedBy := reportedBy';
     severity := severity';
     status := status this;
     affectedArea := affectedArea';
     confirmedCases := confirmedCases';
     firstReported := firstReported this;
     lastUpdated := now;
     treatmentRecommendations := treatmentRecommendations this;
     alertsSent := alertsSent this |}.

(** [diseaseOutbreakSchema.methods.updateStatus]; [resolvedAt] and
    [resolvedBy] are not schema paths and are not stored. *)
Definition updateStatus (this : DiseaseOutbreak) (newStatus : Status) (now : Date)
  : DiseaseOutbreak :=
  {| disease := disease this;
     crop := crop this;
     location := location this;
     reportedBy := reportedBy this;
     severity := severity this;
     status := newStatus;
     affectedArea := affectedArea this;
     confirmedCases := confirmedCases this;
     firstReported := firstReported this;
     lastUpdated := now;
     treatmentRecommendations := treatmentRecommendations this;
     alertsSent := alertsSent this |}.

(** Body of [POST /api/outbreaks/:id/treatment]. *)
Definition addTreatment (this : DiseaseOutbreak) (t : Treatment) (now : Date)
  : DiseaseOutbreak :=
  {| disease := disease this;
     crop := crop this;
     location := location this;
     reportedBy := reportedBy this;
     severity := severity this;
     status := status this;
     affectedArea := affectedArea this;
     confirmedCases := confirmedCases this;
     firstReported := firstReported this;
     lastUpdated := now;
     treatmentRecommendations := treatmentRecommendations this ++ [t];
     alertsSent := alertsSent this |}.

(** [sendOutbreakAlerts]; [nearbyFarmers] is the number of users that
    [User.findNearby] returned. *)
Definition sendOutbreakAlerts (outbreak : DiseaseOutbreak) (nearbyFarmers : nat)
  : DiseaseOutbreak :=
  let alertMessage :=
    "DISEASE ALERT: " +:+ dec (Z.of_nat (confirmedCases outbreak))
    +:+ " farmers reported " +:+ disease outbreak +:+ " in " +:+ crop outbreak
    +:+ " near " +:+ address (location outbreak)
    +:+ ". Check your crops immediately!" in
  {| disease := disease outbreak;
     crop := crop outbreak;
     location := location outbreak;
     reportedBy := reportedBy outbreak;
     severity := severity outbreak;
     status := status outbreak;
     affectedArea := affectedArea outbreak;
     confirmedCases := confirmedCases outbreak;
     firstReported := firstReported outbreak;
     lastUpdated := lastUpdated outbreak;
     treatmentRecommendations := treatmentRecommendations outbreak;
     alertsSent := alertsSent outbreak ++
       [{| alertType := "app"; recipients := nearbyFarmers; message := alertMessage |}] |}.

(** Validated body of [POST /api/outbreaks/report], with [affectedArea]
    given as a number. *)
Record ReportRequest := {
  q_disease : string;
  q_crop : string;
  q_location : Location;
  q_severity : Severity;
  q_affectedArea : option Q;
  q_images : option (list string);
  q_notes : option string
}.

(** The report the handler builds from the body, with the destructuring
    defaults [affectedArea = 0], [images = []], [notes = '']. *)
Definition report_of (user : ObjectId) (req : ReportRequest) : Report :=
  {| userId := user;
     r_severity := q_severity req;
     r_affectedArea := Some (area_or_zero (q_affectedArea req));
     images := match q_images req with Some l => l | None => [] end;
     notes := match q_notes req with Some s => s | None => "" end |}.

(** [new DiseaseOutbreak({...})] of the handler, schema defaults applied:
    [status = 'active'], [confirmedCases = 1], both dates [Date.now]. *)
Definition newOutbreak (user : ObjectId) (req : ReportRequest) (now : Date)
  : DiseaseOutbreak :=
  {| disease := q_disease req;
     crop := q_crop req;
     location := q_location req;
     reportedBy := [report_of user req];
     severity := q_severity req;
     status := active;
     affectedArea := area_or_zero (q_affectedArea req);
     confirmedCases := 1;
     firstReported := now;
     lastUpdated := now;
     treatmentRecommendations := [];
     alertsSent := [] |}.

Definition severity_eqb (a b : Severity) : bool := (rank a =? rank b)%nat.

(** Handler of [POST /api/outbreaks/report], from the query result
    [nearbyOutbreaks] on: returns the outbreak, [isNewOutbreak] and the
    [alertsSent] flag of the response. *)
Definition reportOutbreak (nearbyOutbreaks : list DiseaseOutbreak) (user : ObjectId)
    (req : ReportRequest) (nearbyFarmers : nat) (now : Date)
  : DiseaseOutbreak * bool * bool :=
  let '(outbreak, isNewOutbreak) :=
    match nearbyOutbreaks with
    | existing :: _ => (addReport existing (report_of user req) now, false)
    | [] => (newOutbreak user req now, true)
    end in
  let alert := severity_eqb (severity outbreak) critical
               || (10 <=? confirmedCases outbreak)%nat in
  let outbreak' := if alert then sendOutbreakAlerts outbreak nearbyFarmers else outbreak in
  (outbreak', isNewOutbreak, alert).

(** The states a cluster document goes through: created by the report
    handler, then changed by the methods and handlers above. *)
Inductive reachable : DiseaseOutbreak -> Prop :=
| reach_new user req now :
    reachable (newOutbreak user req now)
| reach_addReport o r now :
    reachable o -> reachable (addReport o r now)
| reach_updateStatus o s now :
    reachable o -> reachable (updateStatus o s now)
| reach_addTreatment o t now :
    reachable o -> reachable (addTreatment o t now)
| reach_sendAlerts o n :
    reachable o -> reachable (sendOutbreakAlerts o n).

(** The level the thresholds of [addReport] give to a pair of counts, and
    [low] below all of them. *)
Definition thresholdLevel (cases : nat) (area : Q) : Severity :=
  if (20 <=? cases)%nat || Qle_bool 500 area then critical
  else if (10 <=? cases)%nat || Qle_bool 200 area then high
  else if (5 <=? cases)%nat || Qle_bool 50 area then medium
  else low.

(** *** Sample clusters *)

(** A cluster first reported as critical, then joined by three reports
    through the report handler. *)
Definition somewhere : Location :=
  {| latitude := 12.97; longitude := 77.59; address := "Hebbal"; region := "Bengaluru" |}.

Definition critical_request : ReportRequest :=
  {| q_disease := "Late Blight"; q_crop := "tomato"; q_location := somewhere;
     q_severity := critical; q_affectedArea := None; q_images := None;
     q_notes := None |}.


Definition report_again (o : DiseaseOutbreak) (req : ReportRequest) (now : Date)
  : DiseaseOutbreak :=
  fst (fst (reportOutbreak [o] 7 req 0 now)).

Definition four_reports : DiseaseOutbreak :=
  let o1 := fst (fst (reportOutbreak [] 7 critical_request 0 100%Z)) in
  report_again (report_again (report_again o1 critical_request 200%Z)
                  critical_request 300%Z) critical_request 400%Z.



(** *** Queries and derived figures *)

Definition status_eqb (a b : Status) : bool :=
  match a, b with
  | active, active | contained, contained | resolved, resolved => true
  | _, _ => false
  end.

(** [diseaseOutbreakSchema.statics.findNearby] over the stored clusters,
    with its default [radiusKm = 50]; the result keeps the stored order.
    The four bounds are exact here and rounded in the program. *)
Definition findNearby (stored : list DiseaseOutbreak) (lat lon : Q)
    (radiusKm : option Q) : list DiseaseOutbreak :=
  let radiusKm := match radiusKm with Some r => r | None => 50%Q end in
  let radiusDegrees := (radiusKm / 111)%Q in
  List.filter (fun o =>
    Qle_bool (lat - radiusDegrees) (latitude (location o))
    && Qle_bool (latitude (location o)) (lat + radiusDegrees)
    && Qle_bool (lon - radiusDegrees) (longitude (location o))
    && Qle_bool (longitude (location o)) (lon + radiusDegrees)
    && negb (status_eqb (status o) resolved)) stored.

(** The alerts a cluster had before a report: those of the first nearby
    cluster, none for a new one. *)
Definition alerts_before (nearbyOutbreaks : list DiseaseOutbreak) : list Alert :=
  match nearbyOutbreaks with
  | existing :: _ => alertsSent existing
  | [] => []
  end.

End Outbreak.


(** ** Sync routes and reconcilers (backend/routes/sync.js) *)
Module Server.

(** Request payloads are parsed JSON. *)
#[warnings="-register-all"]
Inductive json :=
| JNull
| JBool (b : bool)
| JNum (q : Q)
| JStr (s : string)
| JArr (l : list json)
| JObj (m : gmap string json).

(** A call either returns or throws an [Error] with a message. *)
Inductive Res (A : Type) :=
| Ok (a : A)
| Throw (msg : string).
Arguments Ok {A} a.
Arguments Throw {A} msg.

(** Property read [v.k]: a [TypeError] on [null], the member of an object,
    [undefined] ([None]) otherwise. The keys the reconcilers read are not
    members of any primitive or array. *)
Definition prop (v : json) (k : string) : Res (option json) :=
  match v with
  | JNull => Throw ("Cannot read properties of null (reading '" +:+ k +:+ "')")
  | JObj m => Ok (m !! k)
  | _ => Ok None
  end.

(** Optional chaining [v?.k] on a value that may be [undefined]. *)
Definition prop_opt (v : option json) (k : string) : option json :=
  match v with
  | Some (JObj m) => m !! k
  | _ => None
  end.

(** JavaScript truthiness, for [x || fallback]. *)
Definition truthy (v : option json) : bool :=
  match v with
  | None | Some JNull => false
  | Some (JBool b) => b
  | Some (JNum q) => negb (Qeq_bool q 0)
  | Some (JStr s) => negb (String.eqb s "")
  | Some (JArr _) | Some (JObj _) => true
  end.

(** The [diagnosis] sub-document of models/CropDiagnosis.js. *)
Record Diagnosis := {
  disease : string;
  confidence : Q;
  severity : string;
  details : gmap string json
}.

Record CropDiagnosis := {
  _id : ObjectId;
  user : ObjectId;
  diagnosis : Diagnosis;
  crop : string;
  location : option json;
  weather : option json;
  isOffline : bool;
  createdAt : Date
}.

(** The profile paths of the user model that the sync routes touch.
    [lastSync] is what the status route reads off the document; the schema
    declares no such path and nothing here stores one. *)
Record User := {
  u_id : ObjectId;
  name : string;
  email : string;
  u_location : option json;
  farmDetails : option json;
  preferences : option json;
  isActive : bool;
  lastSync : option Date
}.

Record DB := {
  diagnoses : list CropDiagnosis;
  users : list User;
  nextObjectId : ObjectId
}.

Definition in_list (k : string) (l : list string) : bool :=
  existsb (String.eqb k) l.

(** *** What Mongoose does with a value

    The models cast the values they are given to the types of their schema
    and validate them on [save()]; a filter is cast by the same rules. The
    library is not part of the repository: what it makes of a value is a
    parameter of the routes. *)

(** The value given for the [String] path [diagnosis.disease], in the
    filter of [findOne] and in a new document:
    - [disease_string s]: it casts to [s]; the filter selects the documents
      whose disease is [s], and a document stores [s];
    - [disease_filter p msg]: query operators, or an array to choose from;
      the filter selects by [p], and a document cannot hold the value:
      [save()] fails with [msg];
    - [disease_error msg]: it does not cast, and [findOne] throws. *)
Inductive DiseaseCast :=
| disease_string (s : string)
| disease_filter (p : string -> bool) (msg : string)
| disease_error (msg : string).

(** The paths of a new diagnosis that come from the payload, besides the
    disease, as the document holds them after the cast. *)
Record DiagnosisPaths := {
  p_confidence : Q;
  p_severity : string;
  p_details : gmap string json;
  p_crop : string;
  p_location : option json;
  p_weather : option json
}.

(** - [castDisease v], for a value that is neither [undefined] nor [null];
    - [newCropDiagnosis diagnosis crop location weather]: the document
      [new CropDiagnosis({diagnosis, crop, location, weather, ...})] at
      [save()], either the cast values or the message of the validation
      error;
    - [castProfilePath path current value]: what the profile holds at
      [path] after [user[path] = value], or the cast error that [save()]
      then reports;
    - [userValid]: the validators that [user.save()] runs. *)
Record Mongoose := {
  castDisease : json -> DiseaseCast;
  newCropDiagnosis : option json -> json -> option json -> option json -> Res DiagnosisPaths;
  castProfilePath : string -> option json -> json -> Res (option json);
  userValid : User -> bool
}.

(** The filter [{user, createdAt, 'diagnosis.disease'}] of [findOne] for a
    disease given as a string. Every stored document has a disease, so an
    [undefined] or [null] value in the filter selects nothing. *)
Definition dedup_match (userId : ObjectId) (at_ : Date) (dis : option json)
    (d : CropDiagnosis) : bool :=
  (user d =? userId)%nat && (createdAt d =? at_)%Z &&
  match dis with
  | Some (JStr s) => String.eqb (disease (diagnosis d)) s
  | _ => false
  end.

(** The same filter with query operators in place of the disease. *)
Definition filter_match (userId : ObjectId) (at_ : Date) (p : string -> bool)
    (d : CropDiagnosis) : bool :=
  (user d =? userId)%nat && (createdAt d =? at_)%Z && p (disease (diagnosis d)).

(** Outcome objects of the reconcilers; [EmptyResult] is the initial
    [syncResult = {}] of the handlers. *)
Inductive SyncResult :=
| Skipped (reason : string) (id : ObjectId)
| Created (id : ObjectId)
| Logged (timestamp : Date) (data : list (string * option json))
| Updated (fields : list string)
| NoChanges (reason : string)
| EmptyResult.

Definition action (r : SyncResult) : option string :=
  match r with
  | Skipped _ _ => Some "skipped"
  | Created _ => Some "created"
  | Logged _ _ => Some "logged"
  | Updated _ => Some "updated"
  | NoChanges _ => Some "no_changes"
  | EmptyResult => None
  end.

(** [data.crop || 'unknown'] *)
Definition crop_or_unknown (c : option json) : json :=
  match c with
  | Some v => if truthy c then v else JStr "unknown"
  | None => JStr "unknown"
  end.

Definition disease_required : string :=
  "CropDiagnosis validation failed: diagnosis.disease: Path `diagnosis.disease` is required.".

Section Reconcilers.

Variable mongoose : Mongoose.

(** [syncDiagnosisData]; [timestamp] is [new Date(timestamp)]. The
    constructor draws the [_id], whether or not [save()] then succeeds.
    [disease] is a required path, so a document is stored only for a
    disease that casts to a string other than the empty one. *)
Definition syncDiagnosisData (db : DB) (userId : ObjectId) (data : json)
    (timestamp : Date) : Res SyncResult * DB :=
  match prop data "result" with
  | Throw e => (Throw e, db)
  | Ok result =>
      let dis :=
        match prop_opt result "disease" with
        | None | Some JNull => None
        | Some v => Some (castDisease mongoose v)
        end in
      let found :=
        match dis with
        | None => Ok None
        | Some (disease_string s) =>
            Ok (find (dedup_match userId timestamp (Some (JStr s))) (diagnoses db))
        | Some (disease_filter p _) =>
            Ok (find (filter_match userId timestamp p) (diagnoses db))
        | Some (disease_error e) => Throw e
        end in
      match found with
      | Throw e => (Throw e, db)
      | Ok (Some existingDiagnosis) =>
          (Ok (Skipped "Diagnosis already exists" (_id existingDiagnosis)), db)
      | Ok None =>
          match prop data "crop", prop data "location", prop data "weather" with
          | Ok c, Ok loc, Ok w =>
              let id := nextObjectId db in
              let db0 := {| diagnoses := diagnoses db; users := users db;
                            nextObjectId := S id |} in
              match newCropDiagnosis mongoose result (crop_or_unknown c) loc w with
              | Throw e => (Throw e, db0)
              | Ok p =>
                  match dis with
                  | Some (disease_string s) =>
                      if String.eqb s "" then (Throw disease_required, db0)
                      else
                        let doc :=
                          {| _id := id; user := userId;
                             diagnosis := {| disease := s; confidence := p_confidence p;
                                             severity := p_severity p;
                                             details := p_details p |};
                             crop := p_crop p; location := p_location p;
                             weather := p_weather p; isOffline := true;
                             createdAt := timestamp |} in
                        (Ok (Created id),
                         {| diagnoses := diagnoses db ++ [doc]; users := users db;
                            nextObjectId := S id |})
                  | Some (disease_filter _ e) => (Throw e, db0)
                  | Some (disease_error e) => (Throw e, db0)
                  | None => (Throw disease_required, db0)
                  end
              end
          | Throw e, _, _ => (Throw e, db)
          | _, Throw e, _ => (Throw e, db)
          | _, _, Throw e => (Throw e, db)
          end
      end
  end.

(** [syncIrrigationData] *)
Definition syncIrrigationData (db : DB) (userId : ObjectId) (data : json)
    (timestamp : Date) : Res SyncResult * DB :=
  match prop data "crop", prop data "recommendation", prop data "weather" with
  | Ok c, Ok r, Ok w =>
      (Ok (Logged timestamp [("crop", c); ("recommendation", r); ("weather", w)]), db)
  | Throw e, _, _ => (Throw e, db)
  | _, Throw e, _ => (Throw e, db)
  | _, _, Throw e => (Throw e, db)
  end.

Definition or_empty_array (v : option json) : option json :=
  if truthy v then v else Some (JArr []).

(** [syncMarketData] *)
Definition syncMarketData (db : DB) (userId : ObjectId) (data : json)
    (timestamp : Date) : Res SyncResult * DB :=
  match prop data "queries", prop data "interactions" with
  | Ok q, Ok i =>
      (Ok (Logged timestamp [("queries", or_empty_array q);
                             ("interactions", or_empty_array i)]), db)
  | Throw e, _ => (Throw e, db)
  | _, Throw e => (Throw e, db)
  end.

Definition findById (db : DB) (userId : ObjectId) : option User :=
  find (fun u => (u_id u =? userId)%nat) (users db).

Definition allowedUpdates : list string := ["preferences"; "farmDetails"; "location"].

(** The [forEach] over [allowedUpdates] that fills [updates], in insertion
    order. *)
Fixpoint collectUpdates (fields : list string) (data : json)
    : Res (list (string * json)) :=
  match fields with
  | [] => Ok []
  | field :: rest =>
      match prop data field with
      | Throw e => Throw e
      | Ok v =>
          match collectUpdates rest data with
          | Throw e => Throw e
          | Ok updates =>
              match v with
              | Some x => Ok ((field, x) :: updates)
              | None => Ok updates
              end
          end
      end
  end.

(** One assignment [user[field] = value] of [Object.assign]: the document
    takes the cast value. A value that does not cast is reported by
    [save()], which then stores nothing. *)
Definition assignField (u : User) (kv : string * json) : Res User :=
  let '(field, value) := kv in
  if String.eqb field "preferences" then
    match castProfilePath mongoose field (preferences u) value with
    | Ok v =>
        Ok {| u_id := u_id u; name := name u; email := email u;
              u_location := u_location u; farmDetails := farmDetails u;
              preferences := v; isActive := isActive u; lastSync := lastSync u |}
    | Throw e => Throw e
    end
  else if String.eqb field "farmDetails" then
    match castProfilePath mongoose field (farmDetails u) value with
    | Ok v =>
        Ok {| u_id := u_id u; name := name u; email := email u;
              u_location := u_location u; farmDetails := v;
              preferences := preferences u; isActive := isActive u;
              lastSync := lastSync u |}
    | Throw e => Throw e
    end
  else if String.eqb field "location" then
    match castProfilePath mongoose field (u_location u) value with
    | Ok v =>
        Ok {| u_id := u_id u; name := name u; email := email u;
              u_location := v; farmDetails := farmDetails u;
              preferences := preferences u; isActive := isActive u;
              lastSync := lastSync u |}
    | Throw e => Throw e
    end
  else Ok u.

(** [Object.assign(user, updates)] *)
Fixpoint objectAssign (u : User) (updates : list (string * json)) : Res User :=
  match updates with
  | [] => Ok u
  | kv :: rest =>
      match assignField u kv with
      | Ok u1 => objectAssign u1 rest
      | Throw e => Throw e
      end
  end.

(** Replace the stored document that has the id of [u]. *)
Definition saveUser (db : DB) (u : User) : DB :=
  {| diagnoses := diagnoses db;
     users := map (fun v => if (u_id v =? u_id u)%nat then u else v) (users db);
     nextObjectId := nextObjectId db |}.

(** [syncUserData] *)
Definition syncUserData (db : DB) (userId : ObjectId) (data : json)
    (timestamp : Date) : Res SyncResult * DB :=
  match findById db userId with
  | None => (Throw "User not found", db)
  | Some user_ =>
      match collectUpdates allowedUpdates data with
      | Throw e => (Throw e, db)
      | Ok updates =>
          if (0 <? length updates)%nat then
            match objectAssign user_ updates with
            | Throw e => (Throw e, db)
            | Ok user' =>
                if userValid mongoose user' then
                  (Ok (Updated (map fst updates)), saveUser db user')
                else (Throw "User validation failed", db)
            end
          else (Ok (NoChanges "No valid updates found"), db)
      end
  end.

(** A request body [{type, data, timestamp}], and one element of [items]:
    [type] is a string, [data] is present and [timestamp], an ISO 8601
    string, is held as the date it denotes. *)
Record SyncItem := {
  type : string;
  data : json;
  timestamp : Date
}.

Definition syncTypes : list string := ["diagnosis"; "irrigation"; "market"; "user_data"].

(** The [isIn] check of the express-validator chain of both routes. *)
Definition itemValid (item : SyncItem) : bool :=
  in_list (type item) syncTypes.

(** The [switch (item.type)] of the batch handler. *)
Definition dispatch (db : DB) (userId : ObjectId) (ty : string) (d : json) (ts : Date)
    : Res SyncResult * DB :=
  if String.eqb ty "diagnosis" then syncDiagnosisData db userId d ts
  else if String.eqb ty "irrigation" then syncIrrigationData db userId d ts
  else if String.eqb ty "market" then syncMarketData db userId d ts
  else if String.eqb ty "user_data" then syncUserData db userId d ts
  else (Ok EmptyResult, db).

(** One element of [results]. *)
Inductive ItemResult :=
| ItemSuccess (ty : string) (result : SyncResult)
| ItemError (ty : string) (error : string).

Definition status (r : ItemResult) : string :=
  match r with
  | ItemSuccess _ _ => "success"
  | ItemError _ _ => "error"
  end.

(** Body of the [for (const item of items)] loop: [try { ... } catch]. *)
Definition processItem (db : DB) (userId : ObjectId) (item : SyncItem)
    : ItemResult * DB :=
  match dispatch db userId (type item) (data item) (timestamp item) with
  | (Ok syncResult, db') => (ItemSuccess (type item) syncResult, db')
  | (Throw msg, db') => (ItemError (type item) msg, db')
  end.

Fixpoint processItems (db : DB) (userId : ObjectId) (items : list SyncItem)
    : list ItemResult * DB :=
  match items with
  | [] => ([], db)
  | item :: rest =>
      let '(r, db1) := processItem db userId item in
      let '(rs, db2) := processItems db1 userId rest in
      (r :: rs, db2)
  end.

Record Summary := {
  total : nat;
  success : nat;
  errors : nat
}.

Inductive Response :=
| ValidationError
| SyncOk (ty : string) (result : SyncResult)
| InvalidSyncType
| SyncFailed
| BatchOk (summary : Summary) (results : list ItemResult)
| ClearOk (deletedCount : nat) (cutoffDate : Date).

(** [User.findByIdAndUpdate(userId, { lastSync: new Date() })]: the user
    schema has no path [lastSync], so the update is emptied before it is
    sent and no path of the profile kept here changes. *)
Definition touchLastSync (db : DB) (userId : ObjectId) (now : Date) : DB := db.

(** [POST /api/sync/batch]; [None] for [items] that is not an array. *)
Definition batchRoute (db : DB) (userId : ObjectId) (items : option (list SyncItem))
    (now : Date) : Response * DB :=
  match items with
  | None => (ValidationError, db)
  | Some items =>
      if negb (forallb itemValid items) then (ValidationError, db)
      else
        let '(results, db1) := processItems db userId items in
        let db2 := touchLastSync db1 userId now in
        let successCount :=
          length (List.filter (fun r => String.eqb (status r) "success") results) in
        let errorCount :=
          length (List.filter (fun r => String.eqb (status r) "error") results) in
        (BatchOk {| total := length items; success := successCount;
                    errors := errorCount |} results, db2)
  end.

(** [POST /api/sync] *)
Definition syncRoute (db : DB) (userId : ObjectId) (item : SyncItem)
    : Response * DB :=
  if negb (itemValid item) then (ValidationError, db)
  else if in_list (type item) syncTypes then
    match dispatch db userId (type item) (data item) (timestamp item) with
    | (Ok syncResult, db') => (SyncOk (type item) syncResult, db')
    | (Throw _, db') => (SyncFailed, db')
    end
  else (InvalidSyncType, db).

End Reconcilers.

(** What [Object.assign] leaves at a path of the profile: the cast of the
    payload's value where it has one, the current value otherwise. *)
Definition assigned_path (mongoose : Mongoose) (data : gmap string json)
    (path : string) (current : option json) : Res (option json) :=
  match data !! path with
  | Some v => castProfilePath mongoose path current v
  | None => Ok current
  end.

(** The [deleteMany] filter of the clear route. *)
Definition clear_match (userId : ObjectId) (cutoffDate : Date) (d : CropDiagnosis) : bool :=
  (user d =? userId)%nat && (createdAt d <? cutoffDate)%Z && isOffline d.

(** The [switch (olderThan)] of the clear route, with the destructuring
    default ['30d'] for a missing parameter. *)
Definition cutoff (olderThan : option string) (now : Date) : Date :=
  let olderThan := match olderThan with Some s => s | None => "30d" end in
  if String.eqb olderThan "7d" then (now - 7 * day_ms)%Z
  else if String.eqb olderThan "30d" then (now - 30 * day_ms)%Z
  else if String.eqb olderThan "90d" then (now - 90 * day_ms)%Z
  else (now - 30 * day_ms)%Z.

(** [DELETE /api/sync/clear] *)
Definition clearRoute (db : DB) (userId : ObjectId) (olderThan : option string)
    (now : Date) : Response * DB :=
  let cutoffDate := cutoff olderThan now in
  let kept := List.filter (fun d => negb (clear_match userId cutoffDate d)) (diagnoses db) in
  let deletedCount :=
    length (List.filter (clear_match userId cutoffDate) (diagnoses db)) in
  (ClearOk deletedCount cutoffDate,
   {| diagnoses := kept; users := users db; nextObjectId := nextObjectId db |}).


(** *** Sample data *)

Definition blight_result : gmap string json :=
  {[ "disease" := JStr "Blight"; "confidence" := JNum 0.9; "severity" := JStr "high" ]}.

Definition blight_payload : gmap string json :=
  {[ "crop" := JStr "tomato"; "result" := JObj blight_result ]}.

Definition farmer : User :=
  {| u_id := 7; name := "Asha"; email := "asha@example.com"; u_location := None;
     farmDetails := None; preferences := None; isActive := true; lastSync := None |}.

Definition empty_db : DB := {| diagnoses := []; users := []; nextObjectId := 0 |}.

Definition farmer_db : DB := {| diagnoses := []; users := [farmer]; nextObjectId := 0 |}.

Definition profile_payload : gmap string json :=
  {[ "preferences" := JObj {[ "language" := JStr "hi" ]}; "role" := JStr "admin" ]}.

(** A batch whose second item fails: user 9 has no profile. *)
Definition three_items : list SyncItem :=
  [ {| type := "irrigation"; data := JObj {[ "crop" := JStr "rice" ]};
       timestamp := 1000%Z |};
    {| type := "user_data"; data := JObj profile_payload; timestamp := 2000%Z |};
    {| type := "market"; data := JObj ∅; timestamp := 3000%Z |} ].

Definition accept_all : User -> bool := fun _ => true.

(** A sample [Mongoose], for the sample payloads: it takes a value that
    already has the type its path declares as it is and rejects every
    other value, also those the library would convert. Of a diagnosis it
    takes the three required paths and a crop, of a profile path an
    object. *)
Definition typed_disease (v : json) : DiseaseCast :=
  match v with
  | JStr s => disease_string s
  | _ => disease_error "Cast to string failed"
  end.

Definition typed_diagnosis (result : option json) (crop_ : json) (loc w : option json)
    : Res DiagnosisPaths :=
  match result, crop_, loc, w with
  | Some (JObj r), JStr cr, None, None =>
      match r !! "disease", r !! "confidence", r !! "severity" with
      | Some (JStr d), Some (JNum c), Some (JStr s) =>
          if negb (String.eqb d "") && (size r =? 3)%nat && negb (String.eqb cr "")
             && Qle_bool 0 c && Qle_bool c 1 && in_list s ["low"; "medium"; "high"]
          then Ok {| p_confidence := c; p_severity := s; p_details := ∅; p_crop := cr;
                     p_location := None; p_weather := None |}
          else Throw "CropDiagnosis validation failed"
      | _, _, _ => Throw "CropDiagnosis validation failed"
      end
  | _, _, _, _ => Throw "CropDiagnosis validation failed"
  end.

Definition typed_profile_path (path : string) (current : option json) (value : json)
    : Res (option json) :=
  match value with
  | JObj _ => Ok (Some value)
  | _ => Throw "User validation failed"
  end.

Definition typed_mongoose : Mongoose :=
  {| castDisease := typed_disease; newCropDiagnosis := typed_diagnosis;
     castProfilePath := typed_profile_path; userValid := accept_all |}.

Definition online_record : CropDiagnosis :=
  {| _id := 1; user := 7;
     diagnosis := {| disease := "Rust"; confidence := 0.8; severity := "low";
                     details := ∅ |};
     crop := "wheat"; location := None; weather := None; isOffline := false;
     createdAt := 0%Z |}.

Definition offline_record : CropDiagnosis :=
  {| _id := 2; user := 7;
     diagnosis := {| disease := "Rust"; confidence := 0.8; severity := "low";
                     details := ∅ |};
     crop := "wheat"; location := None; weather := None; isOffline := true;
     createdAt := 0%Z |}.


(** *** The status route and the auth middleware *)

(** The [since] query parameter: missing (or empty, which is falsy), a
    string [new Date] cannot read, or a date. *)
Inductive SinceParam :=
| since_absent
| since_invalid
| since_date (d : Date).

Inductive StatusResponse :=
| StatusOk (lastSync : option Date) (diagnoses : nat)
| StatusFailed.

(** The [countDocuments] filter of the status route. *)
Definition since_match (userId : ObjectId) (sinceDate : Date) (d : CropDiagnosis) : bool :=
  (user d =? userId)%nat && (sinceDate <=? createdAt d)%Z.

(** [GET /api/sync/status]; an invalid date does not cast in the query and
    ends in the [catch]. *)
Definition statusRoute (db : DB) (userId : ObjectId) (since : SinceParam) (now : Date)
    : StatusResponse :=
  let sinceDate :=
    match since with
    | since_absent => Some (now - 7 * day_ms)%Z
    | since_invalid => None
    | since_date d => Some d
    end in
  match sinceDate with
  | None => StatusFailed
  | Some sinceDate =>
      let diagnosisCount := length (List.filter (since_match userId sinceDate) (diagnoses db)) in
      let lastSync_ :=
        match findById db userId with
        | Some u => lastSync u
        | None => None
        end in
      StatusOk lastSync_ diagnosisCount
  end.

(** [s.replace(pat, '')] with a string pattern: the first occurrence goes. *)
Fixpoint remove_first (pat s : string) : string :=
  if String.prefix pat s then
    substring (String.length pat) (String.length s - String.length pat) s
  else
    match s with
    | EmptyString => EmptyString
    | String c s' => String c (remove_first pat s')
    end.

(** What [jwt.verify] does with a token: the decoded payload's [userId]
    (which may be missing), or one of the errors the middleware tells
    apart. *)
Inductive VerifyResult :=
| Decoded (userId : option ObjectId)
| TokenExpiredError
| JsonWebTokenError
| OtherError.

Inductive AuthResult :=
| Next (userId : option ObjectId)
| Status401 (error : string)
| Status500.

(** The middleware [auth]; [authorization] is the request header. *)
Definition auth (verify : string -> VerifyResult) (db : DB)
    (authorization : option string) : AuthResult :=
  let token := option_map (remove_first "Bearer ") authorization in
  match token with
  | None => Status401 "Access Denied"
  | Some token =>
      if String.eqb token "" then Status401 "Access Denied"
      else
        match verify token with
        | Decoded userId =>
            match userId with
            | Some uid =>
                match findById db uid with
                | Some u => if isActive u then Next userId else Status401 "Invalid Token"
                | None => Status401 "Invalid Token"
                end
            | None => Status401 "Invalid Token"
            end
        | TokenExpiredError => Status401 "Token Expired"
        | JsonWebTokenError => Status401 "Invalid Token"
        | OtherError => Status500
        end
  end.

(** No two stored diagnoses share a dedup key. *)
Definition unique_keys (l : list CropDiagnosis) : Prop :=
  forall (u : ObjectId) (t : Date) (d : string),
    length (List.filter (dedup_match u t (Some (JStr d))) l) <= 1.

(** The items of a batch answered with [action: 'created']. *)
Definition created (r : ItemResult) : bool :=
  match r with
  | ItemSuccess _ (Created _) => true
  | _ => false
  end.

(** The profiles of everyone but one user. *)
Definition other_users (userId : ObjectId) (db : DB) : list User :=
  List.filter (fun u => negb (u_id u =? userId)%nat) (users db).

(** A batch that sends the same diagnosis twice. *)
Definition duplicate_items : list SyncItem :=
  [ {| type := "diagnosis"; data := JObj blight_payload; timestamp := 1000%Z |};
    {| type := "diagnosis"; data := JObj blight_payload; timestamp := 1000%Z |} ].

(** A database whose only diagnosis was synced from offline long ago. *)
Definition stale_record : CropDiagnosis :=
  {| _id := 0; user := 7;
     diagnosis := {| disease := "Blight"; confidence := 0.9; severity := "high";
                     details := ∅ |};
     crop := "tomato"; location := None; weather := None; isOffline := true;
     createdAt := 1000%Z |}.

Definition stale_db : DB :=
  {| diagnoses := [stale_record]; users := [farmer]; nextObjectId := 1 |}.

Definition hundred_days : Date := (100 * day_ms)%Z.

(** A token check that knows one token, of user 7. *)
Definition one_token : string -> VerifyResult :=
  fun t => if String.eqb t "secret-token" then Decoded (Some 7) else JsonWebTokenError.

(** The effect of one reconciler call on the stored diagnoses: none, or one
    new record at the end. *)
Inductive DiagnosesEffect (userId : ObjectId) (ts : Date) (db : DB)
    : Res SyncResult -> DB -> Prop :=
| effect_none r db' :
    diagnoses db' = diagnoses db ->
    (forall id, r <> Ok (Created id)) ->
    DiagnosesEffect userId ts db r db'
| effect_created doc db' :
    diagnoses db' = diagnoses db ++ [doc] ->
    isOffline doc = true -> user doc = userId -> createdAt doc = ts ->
    List.filter (dedup_match userId ts (Some (JStr (disease (diagnosis doc)))))
                (diagnoses db) = [] ->
    DiagnosesEffect userId ts db (Ok (Created (_id doc))) db'.

End Server.


(** ** The offline provider (src/context/OfflineContext.tsx) *)
Module Client.

(** *** IndexedDB *)

(** Property values of stored records, and the values that are keys: numbers
    and strings are, booleans are not (IndexedDB, "convert a value to a
    key"). *)
Inductive IDBValue :=
| VNumber (z : Z)
| VString (s : string)
| VBoolean (b : bool).

Inductive IDBKey :=
| KNumber (z : Z)
| KString (s : string).

Definition toKey (v : IDBValue) : option IDBKey :=
  match v with
  | VNumber z => Some (KNumber z)
  | VString s => Some (KString s)
  | VBoolean _ => None
  end.

Definition key_eqb (a b : IDBKey) : bool :=
  match a, b with
  | KNumber x, KNumber y => (x =? y)%Z
  | KString x, KString y => String.eqb x y
  | _, _ => false
  end.

(** [IDBKeyRange.only(value)]: throws a [DataError] ([None]) when the value
    is not a key. *)
Definition IDBKeyRange_only (v : IDBValue) : option IDBKey := toKey v.

Record OfflineData := {
  id : string;
  type : string;
  data : Server.json;
  timestamp : Z;
  synced : bool
}.

(** An object store with [keyPath: 'id']: its records in ascending key
    order, which is the order [getAll] returns. *)
Definition Store := list OfflineData.

(** [store.add]: [None] is the [ConstraintError] for a key already present. *)
Fixpoint store_add (s : Store) (r : OfflineData) : option Store :=
  match s with
  | [] => Some [r]
  | x :: rest =>
      match String.compare (id r) (id x) with
      | Lt => Some (r :: s)
      | Eq => None
      | Gt => match store_add rest r with
              | Some rest' => Some (x :: rest')
              | None => None
              end
      end
  end.

(** [store.put] *)
Fixpoint store_put (s : Store) (r : OfflineData) : Store :=
  match s with
  | [] => [r]
  | x :: rest =>
      match String.compare (id r) (id x) with
      | Lt => r :: s
      | Eq => r :: rest
      | Gt => x :: store_put rest r
      end
  end.

(** [store.delete] *)
Definition store_delete (s : Store) (k : string) : Store :=
  List.filter (fun x => negb (String.eqb (id x) k)) s.

(** [index.getAll(range)] on an index with the given key path: the records
    whose indexed property is a key equal to the one of the range. A record
    whose property is not a key has no entry in the index. *)
Definition index_getAll (s : Store) (keyPath : OfflineData -> IDBValue) (only : IDBKey)
    : list OfflineData :=
  List.filter (fun x => match toKey (keyPath x) with
                        | Some k => key_eqb k only
                        | None => false
                        end) s.

(** The two stores of [AgriAdvisorDB] the provider uses. *)
Record IDB := {
  offlineData : Store;
  pendingSyncStore : Store
}.

(** *** Provider state *)

(** Body of a [POST /api/sync] request. *)
Record SyncRequest := {
  rq_type : string;
  rq_data : Server.json;
  rq_timestamp : Z
}.

Inductive FetchResult :=
| HttpResponse (ok : bool)
| NetworkError.

(** The network during one call: what [fetch] gives for a request. *)
Definition Network := SyncRequest -> FetchResult.

(** React state of the provider ([isOnline], [pendingSync], [db],
    [forceOffline]) with its surroundings: [navigator.onLine], the browser's
    database, and the requests sent so far, oldest first. [db] is [true]
    once the provider holds an open handle. *)
Record State := {
  navigatorOnLine : bool;
  isOnline : bool;
  forceOffline : bool;
  db : bool;
  storage : IDB;
  pendingSync : list OfflineData;
  requests : list SyncRequest
}.

Definition setIsOnline (c : State) (b : bool) : State :=
  {| navigatorOnLine := navigatorOnLine c; isOnline := b;
     forceOffline := forceOffline c; db := db c; storage := storage c;
     pendingSync := pendingSync c; requests := requests c |}.

Definition setForceOffline (c : State) (b : bool) : State :=
  {| navigatorOnLine := navigatorOnLine c; isOnline := isOnline c;
     forceOffline := b; db := db c; storage := storage c;
     pendingSync := pendingSync c; requests := requests c |}.

Definition setPendingSync (c : State) (l : list OfflineData) : State :=
  {| navigatorOnLine := navigatorOnLine c; isOnline := isOnline c;
     forceOffline := forceOffline c; db := db c; storage := storage c;
     pendingSync := l; requests := requests c |}.

Definition setStorage (c : State) (s : IDB) : State :=
  {| navigatorOnLine := navigatorOnLine c; isOnline := isOnline c;
     forceOffline := forceOffline c; db := db c; storage := s;
     pendingSync := pendingSync c; requests := requests c |}.

Definition setNavigatorOnLine (c : State) (b : bool) : State :=
  {| navigatorOnLine := b; isOnline := isOnline c;
     forceOffline := forceOffline c; db := db c; storage := storage c;
     pendingSync := pendingSync c; requests := requests c |}.

Definition send (c : State) (r : SyncRequest) : State :=
  {| navigatorOnLine := navigatorOnLine c; isOnline := isOnline c;
     forceOffline := forceOffline c; db := db c; storage := storage c;
     pendingSync := pendingSync c; requests := requests c ++ [r] |}.

(** First render after a page load: the [useState] initial values. *)
Definition mount (online : bool) (browserDb : IDB) : State :=
  {| navigatorOnLine := online; isOnline := online; forceOffline := false;
     db := false; storage := browserDb; pendingSync := []; requests := [] |}.

(** [initDB]; [opened] is whether [openDB] resolved. *)
Definition initDB (c : State) (opened : bool) : State :=
  if opened then
    {| navigatorOnLine := navigatorOnLine c; isOnline := isOnline c;
       forceOffline := forceOffline c; db := true; storage := storage c;
       pendingSync := pendingSyncStore (storage c); requests := requests c |}
  else c.

(** [handleOnline] *)
Definition handleOnline (c : State) : State :=
  if negb (forceOffline c) then setIsOnline c true else c.

(** [handleOffline] *)
Definition handleOffline (c : State) : State := setIsOnline c false.

(** [toggleOnlineMode] *)
Definition toggleOnlineMode (c : State) : State :=
  let c1 := setForceOffline c (negb (forceOffline c)) in
  if forceOffline c then setIsOnline c1 (navigatorOnLine c)
  else setIsOnline c1 false.

(** What can change connectivity: the window's [online] and [offline]
    events, and the user's toggle. The effect that holds [initDB] and the
    two listeners has [forceOffline] as its dependency, so every toggle
    runs [initDB] again; [opened] is whether that [openDB] resolved. *)
Inductive Event := OsOnline | OsOffline | Toggle (opened : bool).

Definition onEvent (c : State) (e : Event) : State :=
  match e with
  | OsOnline => handleOnline (setNavigatorOnLine c true)
  | OsOffline => handleOffline (setNavigatorOnLine c false)
  | Toggle opened => initDB (toggleOnlineMode c) opened
  end.

Definition markSynced (item : OfflineData) : OfflineData :=
  {| id := id item; type := type item; data := data item;
     timestamp := timestamp item; synced := true |}.

(** The body [{type, data, timestamp}] sent for a record. *)
Definition request_of (item : OfflineData) : SyncRequest :=
  {| rq_type := type item; rq_data := data item; rq_timestamp := timestamp item |}.

(** [syncDataItem] *)
Definition syncDataItem (fetch : Network) (c : State) (item : OfflineData)
    : bool * State :=
  let rq := request_of item in
  let c1 := send c rq in
  match fetch rq with
  | HttpResponse true =>
      if db c1 then
        (true, setStorage c1
           {| offlineData := store_put (offlineData (storage c1)) (markSynced item);
              pendingSyncStore := store_delete (pendingSyncStore (storage c1)) (id item) |})
      else (true, c1)
  | HttpResponse false => (false, c1)
  | NetworkError => (false, c1)
  end.

(** [saveOfflineData]; [now_id] and [now] are the two readings of
    [Date.now()], [rnd] is [Math.random().toString(36).substr(2, 9)]. *)
Definition saveOfflineData (fetch : Network) (c : State) (ty : string)
    (d : Server.json) (now_id : Z) (rnd : string) (now : Z) : State :=
  if negb (db c) then c
  else
    let offlineData_ :=
      {| id := ty +:+ "_" +:+ dec now_id +:+ "_" +:+ rnd;
         type := ty; data := d; timestamp := now; synced := false |} in
    match store_add (offlineData (storage c)) offlineData_ with
    | None => c
    | Some store1 =>
        let c1 := setStorage c {| offlineData := store1;
                                  pendingSyncStore := pendingSyncStore (storage c) |} in
        if negb (isOnline c1) then
          match store_add (pendingSyncStore (storage c1)) offlineData_ with
          | None => c1
          | Some store2 =>
              let c2 := setStorage c1 {| offlineData := offlineData (storage c1);
                                         pendingSyncStore := store2 |} in
              setPendingSync c2 (pendingSync c2 ++ [offlineData_])
          end
        else snd (syncDataItem fetch c1 offlineData_)
    end.

(** The [pendingSync.map(...)] and [Promise.all] of [syncPendingData]: the
    requests leave in list order. *)
Fixpoint syncAll (fetch : Network) (c : State) (items : list OfflineData)
    : list (OfflineData * bool) * State :=
  match items with
  | [] => ([], c)
  | item :: rest =>
      let '(success, c1) := syncDataItem fetch c item in
      let '(results, c2) := syncAll fetch c1 rest in
      ((item, success) :: results, c2)
  end.

(** [syncPendingData] *)
Definition syncPendingData (fetch : Network) (c : State) : State :=
  if negb (isOnline c) || negb (db c) || (length (pendingSync c) =? 0)%nat then c
  else
    let '(results, c1) := syncAll fetch c (pendingSync c) in
    let stillPending := map fst (List.filter (fun result => negb (snd result)) results) in
    setPendingSync c1 stillPending.

(** [getOfflineData] *)
Definition getOfflineData (c : State) (ty : string) : list OfflineData :=
  if negb (db c) then []
  else index_getAll (offlineData (storage c)) (fun x => VString (type x)) (KString ty).

(** The [for (const item of syncedItems)] loop of [clearSyncedData]. *)
Definition deleteOld (now : Z) (store : Store) (syncedItems : list OfflineData) : Store :=
  fold_left (fun st item =>
               let weekAgo := (now - 7 * day_ms)%Z in
               if (timestamp item <? weekAgo)%Z then store_delete st (id item) else st)
            syncedItems store.

(** [clearSyncedData]; the [try] block ends at the first exception. *)
Definition clearSyncedData (c : State) (now : Z) : State :=
  if negb (db c) then c
  else
    match IDBKeyRange_only (VBoolean true) with
    | None => c
    | Some range =>
        let syncedItems :=
          index_getAll (offlineData (storage c)) (fun x => VBoolean (synced x)) range in
        setStorage c {| offlineData := deleteOld now (offlineData (storage c)) syncedItems;
                        pendingSyncStore := pendingSyncStore (storage c) |}
    end.


(** Whether a delivery attempt for the record gets a 2xx response. *)
Definition delivered (fetch : Network) (item : OfflineData) : bool :=
  match fetch (request_of item) with
  | HttpResponse true => true
  | _ => false
  end.

(** A store lists its records in ascending order of their ids. *)
Definition ids_ascending (s : Store) : Prop :=
  StronglySorted (fun a b => String.compare (id a) (id b) = Lt) s.

(** The conditions under which [syncPendingData] does anything. *)
Definition guards_pass (c : State) : Prop :=
  isOnline c = true /\ db c = true /\ pendingSync c <> [].

Definition empty_idb : IDB := {| offlineData := []; pendingSyncStore := [] |}.

(** What happens to a provider over time: calls of its operations,
    connectivity events, and page loads that keep only the browser's
    database. *)
Inductive Op :=
| Save (fetch : Network) (ty : string) (d : Server.json) (now_id : Z) (rnd : string)
       (now : Z)
| Drain (fetch : Network)
| Prune (now : Z)
| Connectivity (e : Event)
| Reload (online opened : bool).

Definition step (c : State) (op : Op) : State :=
  match op with
  | Save fetch ty d now_id rnd now => saveOfflineData fetch c ty d now_id rnd now
  | Drain fetch => syncPendingData fetch c
  | Prune now => clearSyncedData c now
  | Connectivity e => onEvent c e
  | Reload online opened => initDB (mount online (storage c)) opened
  end.

Definition run (c : State) (ops : list Op) : State := fold_left step ops c.

(** A first visit: empty database, then [initDB]. *)
Definition first_visit (online opened : bool) : State :=
  initDB (mount online empty_idb) opened.

(** *** Sample runs *)

Definition reliable : Network := fun _ => HttpResponse true.
Definition unreachable : Network := fun _ => NetworkError.
Definition rejecting : Network := fun _ => HttpResponse false.

Definition some_data : Server.json := Server.JObj ∅.

(** A session that starts offline and queues a market record at time 200
    and a diagnosis at time 300. *)
Definition offline_session : State :=
  let c0 := initDB (mount false empty_idb) true in
  let c1 := saveOfflineData unreachable c0 "market" some_data 200 "k3x9q0a1b" 200 in
  saveOfflineData unreachable c1 "diagnosis" some_data 300 "z8y7w6v5u" 300.

(** The next page load, with the network back. *)
Definition reloaded_online : State :=
  initDB (mount true (storage offline_session)) true.

(** A session that is online and idle, and the record it saves at time 500
    while the server cannot be reached. *)
Definition online_idle : State := initDB (mount true empty_idb) true.

Definition after_failed_save : State :=
  saveOfflineData unreachable online_idle "diagnosis" some_data 500 "q1w2e3r4t" 500.

(** A store holding one record synced at time 0, looked at eight days later. *)
Definition old_synced : OfflineData :=
  {| id := "diagnosis_0_a1b2c3d4e"; type := "diagnosis"; data := some_data;
     timestamp := 0; synced := true |}.

Definition with_old_synced : State :=
  initDB (mount true {| offlineData := [old_synced]; pendingSyncStore := [] |}) true.

Definition eight_days : Z := 8 * day_ms.


(** A record is still in a store, under its id, and not less synced. *)
Definition survives (x : OfflineData) (s : Store) : Prop :=
  exists y, In y s /\ id y = id x /\ (synced x = true -> synced y = true).

(** The stores are in key order, every pending record has its id in the
    offline store, and, while the provider holds the database, the pending
    list in memory has the records of the pending store. *)
Definition consistent (c : State) : Prop :=
  ids_ascending (offlineData (storage c)) /\
  ids_ascending (pendingSyncStore (storage c)) /\
  (forall r, In r (pendingSyncStore (storage c)) ->
             exists y, In y (offlineData (storage c)) /\ id y = id r) /\
  (if db c then Permutation (pendingSync c) (pendingSyncStore (storage c))
   else pendingSync c = []).

(** *** The service worker's background sync *)

(** The request of the worker's [syncDataItem]: the record's [data] alone
    as the body, and no [Authorization] header. *)
Record WorkerRequest := {
  wr_body : Server.json;
  wr_authorization : option string
}.

(** What the worker sees of the answer: the [ok] flag and whether the body
    parses as JSON, or a rejected [fetch]. *)
Inductive WorkerFetchResult :=
| WorkerResponse (ok : bool) (json_body : bool)
| WorkerNetworkError.

Definition worker_request_of (item : OfflineData) : WorkerRequest :=
  {| wr_body := data item; wr_authorization := None |}.

(** Whether the worker's [syncDataItem] returns instead of throwing. *)
Definition worker_delivered (fetch : WorkerRequest -> WorkerFetchResult)
    (item : OfflineData) : bool :=
  match fetch (worker_request_of item) with
  | WorkerResponse true true => true
  | _ => false
  end.

(** [doBackgroundSync]: the loop over [getPendingData()], each turn in its
    own [try]. *)
Definition doBackgroundSync (fetch : WorkerRequest -> WorkerFetchResult) (browserDb : IDB)
    : IDB :=
  let pendingData := pendingSyncStore browserDb in
  fold_left (fun st item =>
               if worker_delivered fetch item then
                 {| offlineData := offlineData st;
                    pendingSyncStore := store_delete (pendingSyncStore st) (id item) |}
               else st)
            pendingData browserDb.

(** A record of the offline store, whatever its [synced] flag. *)
Definition same_record (x y : OfflineData) : Prop :=
  id y = id x /\ type y = type x /\ data y = data x /\ timestamp y = timestamp x.

End Client.


(** * Properties *)

(** ** Outbreak clusters *)
Module OutbreakFacts.
Import Outbreak.

Lemma Qle_bool_reflect (x y : Q) : reflect (x <= y)%Q (Qle_bool x y).
Proof.
  destruct (Qle_bool x y) eqn:E; constructor.
  - now apply Qle_bool_iff.
  - intros H. apply Qle_bool_iff in H. congruence.
Qed.

(** Case analysis on every threshold test in the goal. *)
Ltac thresholds :=
  repeat match goal with
  | |- context [Qle_bool ?x ?y] => destruct (Qle_bool_reflect x y)
  | |- context [(?n <=? ?m)%nat] => destruct (Nat.leb_spec n m)
  end; cbn [orb rank] in *.

Lemma addReport_reportedBy o r now :
  reportedBy (addReport o r now) = reportedBy o ++ [r].
Proof. reflexivity. Qed.

Lemma addReport_confirmedCases o r now :
  confirmedCases (addReport o r now) = S (length (reportedBy o)).
Proof. cbn. rewrite length_app. cbn. lia. Qed.



(** [addReport] sets the level of the thresholds when one is reached and
    keeps the stored severity otherwise. *)
Lemma addReport_severity o r now :
  let o' := addReport o r now in
  severity o' =
    match thresholdLevel (confirmedCases o') (affectedArea o') with
    | low => severity o
    | s => s
    end.
Proof.
  unfold addReport, thresholdLevel.
  cbn [severity confirmedCases affectedArea].
  thresholds; reflexivity.
Qed.


(** C7. In every state a cluster reaches from its creation by the report
    handler through [addReport], [updateStatus], treatment additions and
    alerts, [confirmedCases] equals the length of [reportedBy]. *)
Theorem confirmedCases_eq_reportedBy_length (o : DiseaseOutbreak) :
  reachable o -> confirmedCases o = length (reportedBy o).
Proof.
  induction 1 as [user req now | o r now _ _ | o s now _ IH | o t now _ IH | o n _ IH].
  - reflexivity.
  - rewrite addReport_confirmedCases, addReport_reportedBy, length_app. cbn. lia.
  - exact IH.
  - exact IH.
  - exact IH.
Qed.

Lemma four_reports_reachable : reachable four_reports.
Proof.
  unfold four_reports, report_again. cbn.
  repeat (first [ apply reach_sendAlerts | apply reach_addReport ]).
  apply (reach_new 7 critical_request 100%Z).
Qed.

Lemma confirmedCases_eq_reportedBy_length_witness :
  confirmedCases four_reports = 4 /\ length (reportedBy four_reports) = 4.
Proof.
  pose proof (confirmedCases_eq_reportedBy_length four_reports four_reports_reachable) as H.
  split; [ reflexivity | rewrite <- H; reflexivity ].
Defined.





(** *** Further invariants of clusters and the report handler *)

(** Once a cluster has a second report, a severity above [low] given by
    the thresholds is the severity of the cluster: what the reporters said,
    the first one included, no longer shows. *)
Theorem severity_follows_counts (o : DiseaseOutbreak) :
  reachable o -> 2 <= confirmedCases o ->
  thresholdLevel (confirmedCases o) (affectedArea o) = low \/
  severity o = thresholdLevel (confirmedCases o) (affectedArea o).
Proof.
  induction 1 as [user req now | o r now _ _ | o s now _ IH | o t now _ IH | o n _ IH];
    intros Hc.
  - cbn in Hc. lia.
  - pose proof (addReport_severity o r now) as Hs. cbv zeta in Hs.
    destruct (thresholdLevel _ _); auto.
  - exact (IH Hc).
  - exact (IH Hc).
  - exact (IH Hc).
Qed.

Lemma severity_follows_counts_witness :
  severity (addReport four_reports (report_of 8 critical_request) 500%Z)
  = thresholdLevel 5 0.
Proof.
  destruct (severity_follows_counts
              (addReport four_reports (report_of 8 critical_request) 500%Z)) as [H | H].
  - apply reach_addReport. exact four_reports_reachable.
  - vm_compute. lia.
  - vm_compute in H. discriminate H.
  - rewrite H. reflexivity.
Defined.

(** What the report handler answers. It merges into the first nearby
    cluster only, or creates a cluster when there is none; it sends an
    alert, and says so, exactly when the resulting cluster is critical or
    has ten reports, so every report that joins a cluster of nine or more
    adds one alert; a new cluster alerts exactly when its reporter called
    it critical. *)
Theorem reportOutbreak_outcome (nearbyOutbreaks : list DiseaseOutbreak)
    (user : ObjectId) (req : ReportRequest) (nearbyFarmers : nat) (now : Date) :
  let '(o, isNewOutbreak, alert) :=
    reportOutbreak nearbyOutbreaks user req nearbyFarmers now in
  (isNewOutbreak = true <-> nearbyOutbreaks = []) /\
  (alert = true <-> severity o = critical \/ 10 <= confirmedCases o) /\
  length (alertsSent o)
    = length (alerts_before nearbyOutbreaks) + (if alert then 1 else 0) /\
  (nearbyOutbreaks = [] ->
   confirmedCases o = 1 /\ status o = active /\ reportedBy o = [report_of user req] /\
   (alert = true <-> q_severity req = critical)) /\
  (forall existing rest, nearbyOutbreaks = existing :: rest ->
   reportedBy o = reportedBy existing ++ [report_of user req] /\
   confirmedCases o = S (length (reportedBy existing)) /\
   status o = status existing /\
   (9 <= length (reportedBy existing) -> alert = true)).
Proof.
  assert (Hsev : forall s, severity_eqb s critical = true <-> s = critical).
  { intros s. destruct s; cbn; split; congruence. }
  unfold reportOutbreak.
  destruct nearbyOutbreaks as [| existing rest].
  - set (o := newOutbreak user req now).
    set (alert := severity_eqb (severity o) critical || (10 <=? confirmedCases o)%nat).
    assert (Ha : alert = true <-> severity o = critical \/ 10 <= confirmedCases o).
    { unfold alert. rewrite orb_true_iff, Hsev, Nat.leb_le. tauto. }
    destruct alert eqn:E.
    + split; [ tauto | ]. split; [ exact Ha | ]. split; [ reflexivity | ].
      split; [ | intros ? ? [=] ].
      intros _. repeat split; auto.
      intros _. destruct (proj1 Ha eq_refl) as [H | H]; [ exact H | cbn in H; lia ].
    + split; [ tauto | ]. split; [ exact Ha | ]. split; [ reflexivity | ].
      split; [ | intros ? ? [=] ].
      intros _. repeat split; auto; try discriminate.
      intros H. apply Ha. left. exact H.
  - set (o := addReport existing (report_of user req) now).
    set (alert := severity_eqb (severity o) critical || (10 <=? confirmedCases o)%nat).
    assert (Ha : alert = true <-> severity o = critical \/ 10 <= confirmedCases o).
    { unfold alert. rewrite orb_true_iff, Hsev, Nat.leb_le. tauto. }
    assert (Hc : confirmedCases o = S (length (reportedBy existing)))
      by apply addReport_confirmedCases.
    destruct alert eqn:E.
    + split; [ split; discriminate | ]. split; [ exact Ha | ].
      split; [ cbn; rewrite length_app; reflexivity | ].
      split; [ discriminate | ].
      intros e r [= <- <-]. repeat split; auto.
    + split; [ split; discriminate | ]. split; [ exact Ha | ].
      split; [ cbn; lia | ].
      split; [ discriminate | ].
      intros e r [= <- <-]. repeat split; auto.
      intros H9. apply Ha. right. lia.
Qed.


Lemma status_eqb_eq (a b : Status) : status_eqb a b = true <-> a = b.
Proof. destruct a, b; cbn; split; congruence. Qed.

Lemma findNearby_In (stored : list DiseaseOutbreak) (lat lon r : Q) (o : DiseaseOutbreak) :
  In o (findNearby stored lat lon (Some r)) <->
  In o stored /\ status o <> resolved /\
  (lat - r / 111 <= latitude (location o) <= lat + r / 111)%Q /\
  (lon - r / 111 <= longitude (location o) <= lon + r / 111)%Q.
Proof.
  unfold findNearby. rewrite List.filter_In, !andb_true_iff, negb_true_iff.
  rewrite !Qle_bool_iff.
  destruct (status_eqb (status o) resolved) eqn:E.
  - apply status_eqb_eq in E. intuition congruence.
  - assert (status o <> resolved).
    { intros H. apply status_eqb_eq in H. congruence. }
    tauto.
Qed.

(** [findNearby] returns stored clusters that are not resolved, so a
    cluster is gone from every result once [updateStatus] has resolved it;
    a wider radius keeps everything a narrower one found; a cluster that is
    not resolved is found at its own coordinates for every non-negative
    radius. *)
Theorem findNearby_scope (stored : list DiseaseOutbreak) (lat lon : Q) :
  (forall r o, In o (findNearby stored lat lon r) ->
               In o stored /\ status o <> resolved) /\
  (forall r o now, ~ In (updateStatus o resolved now) (findNearby stored lat lon r)) /\
  (forall r r' o, (r <= r')%Q ->
     In o (findNearby stored lat lon (Some r)) ->
     In o (findNearby stored lat lon (Some r'))) /\
  (forall r o, (0 <= r)%Q -> In o stored -> status o <> resolved ->
     In o (findNearby stored (latitude (location o)) (longitude (location o)) (Some r))) /\
  findNearby stored lat lon None = findNearby stored lat lon (Some 50%Q).
Proof.
  assert (Hdiv : forall r r' : Q, (r <= r')%Q -> (r / 111 <= r' / 111)%Q).
  { intros r r' H. unfold Qdiv. apply Qmult_le_compat_r; [ exact H | ].
    apply Qlt_le_weak, Qinv_lt_0_compat. reflexivity. }
  assert (Hscope : forall r o, In o (findNearby stored lat lon r) ->
                               In o stored /\ status o <> resolved).
  { intros [r |] o H; [ | fold (findNearby stored lat lon (Some 50%Q)) in H ];
      apply findNearby_In in H; tauto. }
  split; [ exact Hscope | ]. split.
  { intros r o now H. apply Hscope in H as [_ H]. apply H. reflexivity. }
  split.
  { intros r r' o Hr H. apply findNearby_In in H. apply findNearby_In.
    apply Hdiv in Hr. intuition lra. }
  split.
  { intros r o Hr Hin Hs. apply findNearby_In.
    pose proof (Hdiv 0%Q r Hr) as H0. unfold Qdiv in H0 at 1. rewrite Qmult_0_l in H0.
    intuition lra. }
  reflexivity.
Qed.

End OutbreakFacts.


(** ** Sync routes *)
Module ServerFacts.
Import Server.

Lemma find_none_filter {A} (f : A -> bool) (l : list A) :
  find f l = None <-> List.filter f l = [].
Proof.
  induction l as [| x l IH]; cbn; [ tauto | ].
  destruct (f x); [ split; discriminate | exact IH ].
Qed.


Lemma disease_value (mongoose : Mongoose) (v : json) :
  v <> JNull ->
  match Some v with
  | None | Some JNull => None
  | Some v => Some (castDisease mongoose v)
  end = Some (castDisease mongoose v).
Proof. destruct v; congruence. Qed.

(** What the reconciler does with a payload whose disease casts to the
    string [d], other than the empty one, when no stored record has the
    key and Mongoose accepts the document. *)
Lemma syncDiagnosisData_created (mongoose : Mongoose) (db : DB) (userId : ObjectId)
    (data result : gmap string json) (v : json) (d : string) (ts : Date)
    (paths : DiagnosisPaths) :
  data !! "result" = Some (JObj result) ->
  result !! "disease" = Some v -> v <> JNull ->
  castDisease mongoose v = disease_string d -> d <> "" ->
  newCropDiagnosis mongoose (Some (JObj result)) (crop_or_unknown (data !! "crop"))
                   (data !! "location") (data !! "weather") = Ok paths ->
  find (dedup_match userId ts (Some (JStr d))) (diagnoses db) = None ->
  syncDiagnosisData mongoose db userId (JObj data) ts
  = (Ok (Created (nextObjectId db)),
     {| diagnoses :=
          diagnoses db ++
          [ {| _id := nextObjectId db; user := userId;
               diagnosis := {| disease := d; confidence := p_confidence paths;
                               severity := p_severity paths;
                               details := p_details paths |};
               crop := p_crop paths; location := p_location paths;
               weather := p_weather paths; isOffline := true; createdAt := ts |} ];
        users := users db; nextObjectId := S (nextObjectId db) |}).
Proof.
  intros Hres Hdis Hnull Hcast Hne Hdoc Hfind.
  unfold syncDiagnosisData. cbn [prop]. rewrite Hres. cbn [prop_opt]. rewrite Hdis.
  rewrite (disease_value mongoose v Hnull), Hcast. cbv zeta. rewrite Hfind, Hdoc.
  apply String.eqb_neq in Hne. now rewrite Hne.
Qed.





(** *** The clear route *)

Lemma cutoff_default (olderThan : option string) (now : Date) :
  olderThan <> Some "7d" -> olderThan <> Some "90d" ->
  cutoff olderThan now = (now - 30 * day_ms)%Z.
Proof.
  intros H7 H90. unfold cutoff.
  destruct olderThan as [s |]; [ | reflexivity ].
  destruct (String.eqb_spec s "7d") as [-> | _]; [ congruence | ].
  destruct (String.eqb_spec s "30d") as [_ | _]; [ reflexivity | ].
  destruct (String.eqb_spec s "90d") as [-> | _]; [ congruence | reflexivity ].
Qed.

Lemma clear_match_spec (userId : ObjectId) (c : Date) (d : CropDiagnosis) :
  clear_match userId c d = true <->
  user d = userId /\ (createdAt d < c)%Z /\ isOffline d = true.
Proof.
  unfold clear_match. rewrite !andb_true_iff, Nat.eqb_eq, Z.ltb_lt. tauto.
Qed.

(** C10. The clear route never rejects a request: a missing [olderThan], or
    any value other than 7d and 90d, gives the 30-day cutoff. It removes the
    records of the requesting user that are tagged [isOffline] and older
    than the cutoff, and nothing else: every record of another user and
    every online-origin record stays, whatever its age. *)
Theorem clearRoute_scope (db : DB) (userId : ObjectId) (olderThan : option string)
    (now : Date) :
  exists (deletedCount : nat) (db' : DB),
    clearRoute db userId olderThan now
      = (ClearOk deletedCount (cutoff olderThan now), db') /\
    (olderThan <> Some "7d" /\ olderThan <> Some "90d" ->
     cutoff olderThan now = (now - 30 * day_ms)%Z) /\
    (olderThan = Some "7d" -> cutoff olderThan now = (now - 7 * day_ms)%Z) /\
    (olderThan = Some "90d" -> cutoff olderThan now = (now - 90 * day_ms)%Z) /\
    (forall d, In d (diagnoses db') <->
               In d (diagnoses db) /\
               ~ (user d = userId /\ (createdAt d < cutoff olderThan now)%Z
                  /\ isOffline d = true)) /\
    (forall d, In d (diagnoses db) -> isOffline d = false -> In d (diagnoses db')) /\
    (forall d, In d (diagnoses db) -> user d <> userId -> In d (diagnoses db')) /\
    deletedCount + length (diagnoses db') = length (diagnoses db) /\
    users db' = users db.
Proof.
  eexists _, _. split; [ reflexivity | ]. cbn [diagnoses users].
  assert (Hin : forall d,
    In d (List.filter (fun x => negb (clear_match userId (cutoff olderThan now) x))
            (diagnoses db)) <->
    In d (diagnoses db) /\
    ~ (user d = userId /\ (createdAt d < cutoff olderThan now)%Z /\ isOffline d = true)).
  { intros d. rewrite List.filter_In, negb_true_iff, <- clear_match_spec.
    destruct (clear_match _ _ d); intuition congruence. }
  split; [ intros [H7 H90]; now apply cutoff_default | ].
  split; [ intros ->; reflexivity | ].
  split; [ intros ->; reflexivity | ].
  split; [ exact Hin | ].
  split.
  { intros d Hd Hoff. apply Hin. split; [ exact Hd | ]. intros (_ & _ & H). congruence. }
  split.
  { intros d Hd Hu. apply Hin. split; [ exact Hd | ]. intros (H & _). congruence. }
  split; [ | reflexivity ].
  apply List.filter_length.
Qed.


(** *** The user-data reconciler *)

Lemma collectUpdates_allowed (data : gmap string json) :
  collectUpdates allowedUpdates (JObj data) =
  Ok (match data !! "preferences" with Some v => [("preferences", v)] | None => [] end
      ++ match data !! "farmDetails" with Some v => [("farmDetails", v)] | None => [] end
      ++ match data !! "location" with Some v => [("location", v)] | None => [] end).
Proof.
  unfold allowedUpdates. cbn [collectUpdates prop].
  destruct (data !! "preferences"), (data !! "farmDetails"), (data !! "location");
    reflexivity.
Qed.

(** A payload that is neither an object nor [null] has none of the fields. *)
Lemma syncUserData_not_object (mongoose : Mongoose) (db : DB) (userId : ObjectId)
    (data : json) (ts : Date) (u : User) :
  findById db userId = Some u ->
  data <> JNull -> (forall m, data <> JObj m) ->
  syncUserData mongoose db userId data ts = (Ok (NoChanges "No valid updates found"), db).
Proof.
  intros Hu Hnull Hobj. unfold syncUserData. rewrite Hu.
  destruct data; try reflexivity; [ congruence | exfalso; eapply Hobj; reflexivity ].
Qed.

Lemma findById_id (db : DB) (userId : ObjectId) (u : User) :
  findById db userId = Some u -> u_id u = userId.
Proof.
  unfold findById. intros H. apply find_some in H as [_ H]. now apply Nat.eqb_eq.
Qed.

(** [save()] stores the profile: a lookup of its id returns it, and the
    lookup of any other id is as before. *)
Lemma findById_saveUser (db : DB) (u u' : User) :
  findById db (u_id u') = Some u ->
  findById (saveUser db u') (u_id u') = Some u'.
Proof.
  unfold findById, saveUser. cbn [users].
  induction (users db) as [| v l IH]; cbn [find map]; [ discriminate | ].
  destruct (Nat.eqb_spec (u_id v) (u_id u')) as [E | E].
  - intros _. now rewrite Nat.eqb_refl.
  - apply Nat.eqb_neq in E. rewrite E. exact IH.
Qed.

Lemma findById_saveUser_other (db : DB) (u' : User) (other : ObjectId) :
  other <> u_id u' ->
  findById (saveUser db u') other = findById db other.
Proof.
  intros Hne. unfold findById, saveUser. cbn [users].
  induction (users db) as [| v l IH]; cbn [find map]; [ reflexivity | ].
  destruct (Nat.eqb_spec (u_id v) (u_id u')) as [E | E].
  - assert (H1 : (u_id u' =? other)%nat = false) by (apply Nat.eqb_neq; congruence).
    assert (H2 : (u_id v =? other)%nat = false) by (apply Nat.eqb_neq; congruence).
    now rewrite H1, H2.
  - now rewrite IH.
Qed.

Lemma saveUser_frame (db : DB) (u : User) :
  other_users (u_id u) (saveUser db u) = other_users (u_id u) db /\
  map u_id (users (saveUser db u)) = map u_id (users db) /\
  diagnoses (saveUser db u) = diagnoses db.
Proof.
  unfold other_users, saveUser. cbn [users diagnoses].
  split; [ | split; [ | reflexivity ] ].
  - induction (users db) as [| v l IH]; [ reflexivity | ]. cbn.
    destruct (Nat.eqb_spec (u_id v) (u_id u)) as [E | E]; cbn.
    + rewrite Nat.eqb_refl. cbn. exact IH.
    + apply Nat.eqb_neq in E. rewrite E. cbn. now rewrite IH.
  - induction (users db) as [| v l IH]; [ reflexivity | ]. cbn.
    destruct (Nat.eqb_spec (u_id v) (u_id u)) as [E | E]; now rewrite IH, ?E.
Qed.

(** [Object.assign] on the updates of a payload object: each of the three
    paths holds what [assigned_path] says, every other path is kept. *)
Lemma objectAssign_allowed (mongoose : Mongoose) (data : gmap string json) (u : User) :
  objectAssign mongoose u
    (match data !! "preferences" with Some v => [("preferences", v)] | None => [] end
     ++ match data !! "farmDetails" with Some v => [("farmDetails", v)] | None => [] end
     ++ match data !! "location" with Some v => [("location", v)] | None => [] end)
  = match assigned_path mongoose data "preferences" (preferences u) with
    | Throw e => Throw e
    | Ok p =>
        match assigned_path mongoose data "farmDetails" (farmDetails u) with
        | Throw e => Throw e
        | Ok f =>
            match assigned_path mongoose data "location" (u_location u) with
            | Throw e => Throw e
            | Ok l =>
                Ok {| u_id := u_id u; name := name u; email := email u; u_location := l;
                      farmDetails := f; preferences := p; isActive := isActive u;
                      lastSync := lastSync u |}
            end
        end
    end.
Proof.
  unfold assigned_path. destruct u.
  destruct (data !! "preferences") as [vp |]; cbn;
    [ destruct (castProfilePath mongoose "preferences" _ vp); [ cbn | reflexivity ] | ];
    (destruct (data !! "farmDetails") as [vf |]; cbn;
     [ destruct (castProfilePath mongoose "farmDetails" _ vf); [ cbn | reflexivity ] | ]);
    (destruct (data !! "location") as [vl |]; cbn;
     [ destruct (castProfilePath mongoose "location" _ vl); reflexivity | reflexivity ]).
Qed.

Lemma present_updates (data : gmap string json) :
  map fst
    (match data !! "preferences" with Some v => [("preferences", v)] | None => [] end
     ++ match data !! "farmDetails" with Some v => [("farmDetails", v)] | None => [] end
     ++ match data !! "location" with Some v => [("location", v)] | None => [] end)
  = List.filter (fun f => bool_decide (is_Some (data !! f))) allowedUpdates.
Proof.
  unfold allowedUpdates. cbn [List.filter].
  destruct (data !! "preferences"), (data !! "farmDetails"), (data !! "location");
    reflexivity.
Qed.

(** The reconciler on a payload object, for a stored profile. *)
Lemma syncUserData_object (mongoose : Mongoose) (db : DB) (userId : ObjectId)
    (data : gmap string json) (ts : Date) (u : User) :
  findById db userId = Some u ->
  let present :=
    List.filter (fun f => bool_decide (is_Some (data !! f))) allowedUpdates in
  syncUserData mongoose db userId (JObj data) ts
  = if (0 <? length present)%nat then
      match assigned_path mongoose data "preferences" (preferences u) with
      | Throw e => (Throw e, db)
      | Ok p =>
          match assigned_path mongoose data "farmDetails" (farmDetails u) with
          | Throw e => (Throw e, db)
          | Ok f =>
              match assigned_path mongoose data "location" (u_location u) with
              | Throw e => (Throw e, db)
              | Ok l =>
                  let u' := {| u_id := u_id u; name := name u; email := email u;
                               u_location := l; farmDetails := f; preferences := p;
                               isActive := isActive u; lastSync := lastSync u |} in
                  if userValid mongoose u' then (Ok (Updated present), saveUser db u')
                  else (Throw "User validation failed", db)
              end
          end
      end
    else (Ok (NoChanges "No valid updates found"), db).
Proof.
  intros Hu present. unfold syncUserData.
  rewrite Hu, collectUpdates_allowed, objectAssign_allowed.
  rewrite <- (length_map fst), present_updates. fold present.
  destruct (0 <? length present)%nat; [ | reflexivity ].
  destruct (assigned_path mongoose data "preferences" _); [ | reflexivity ].
  destruct (assigned_path mongoose data "farmDetails" _); [ | reflexivity ].
  destruct (assigned_path mongoose data "location" _); reflexivity.
Qed.

(** C9. For a payload object and a stored profile, the outcome depends on
    the payload through [preferences], [farmDetails] and [location] only.
    With none of the three present it is [no_changes] and nothing is
    written. Otherwise, when Mongoose casts the values given and its
    validators accept the profile, the outcome is [updated] with the fields
    applied, in allow-list order, and the profile is stored: a lookup
    returns it with the three paths at their cast values and every other
    path as before, and no other profile and no diagnosis changes. When a
    value does not cast or the validators reject the profile, the call
    throws and nothing is stored. *)
Theorem syncUserData_allow_list (mongoose : Mongoose) (db : DB)
    (userId : ObjectId) (data : gmap string json) (ts : Date) (u : User) :
  findById db userId = Some u ->
  let present :=
    List.filter (fun f => bool_decide (is_Some (data !! f))) allowedUpdates in
  let result := syncUserData mongoose db userId (JObj data) ts in
  (present = [] -> result = (Ok (NoChanges "No valid updates found"), db)) /\
  (present <> [] ->
   forall p f l : option json,
     assigned_path mongoose data "preferences" (preferences u) = Ok p ->
     assigned_path mongoose data "farmDetails" (farmDetails u) = Ok f ->
     assigned_path mongoose data "location" (u_location u) = Ok l ->
     let u' := {| u_id := u_id u; name := name u; email := email u; u_location := l;
                  farmDetails := f; preferences := p; isActive := isActive u;
                  lastSync := lastSync u |} in
     (userValid mongoose u' = true ->
      exists db' : DB,
        result = (Ok (Updated present), db') /\
        action (Updated present) = Some "updated" /\
        findById db' userId = Some u' /\
        (forall other, other <> userId -> findById db' other = findById db other) /\
        map u_id (users db') = map u_id (users db) /\
        diagnoses db' = diagnoses db /\ nextObjectId db' = nextObjectId db) /\
     (userValid mongoose u' = false -> exists msg, result = (Throw msg, db))) /\
  (present <> [] ->
   (exists e, assigned_path mongoose data "preferences" (preferences u) = Throw e) \/
   (exists e, assigned_path mongoose data "farmDetails" (farmDetails u) = Throw e) \/
   (exists e, assigned_path mongoose data "location" (u_location u) = Throw e) ->
   exists msg, result = (Throw msg, db)) /\
  (forall data' : gmap string json,
     (forall f, In f allowedUpdates -> data' !! f = data !! f) ->
     syncUserData mongoose db userId (JObj data') ts = result).
Proof.
  intros Hu present result.
  assert (Hpos : present <> [] -> (0 <? length present)%nat = true).
  { destruct present; [ congruence | reflexivity ]. }
  subst result. rewrite (syncUserData_object mongoose db userId data ts u Hu).
  fold present.
  split; [ intros ->; reflexivity | ].
  split; [ | split ].
  - intros Hne p f l Hp Hf Hl u'. rewrite (Hpos Hne), Hp, Hf, Hl. cbv zeta. fold u'.
    split.
    + intros Hv. rewrite Hv. exists (saveUser db u').
      assert (Hid : u_id u' = userId) by exact (findById_id _ _ _ Hu).
      split; [ reflexivity | ]. split; [ reflexivity | ].
      split; [ rewrite <- Hid; apply (findById_saveUser db u u'); now rewrite Hid | ].
      split; [ intros other Ho; apply findById_saveUser_other; congruence | ].
      destruct (saveUser_frame db u') as (_ & Hm & Hd). auto.
    + intros Hv. rewrite Hv. eauto.
  - intros Hne H. rewrite (Hpos Hne).
    destruct (assigned_path mongoose data "preferences" _) as [p | e]; [ | eauto ].
    destruct (assigned_path mongoose data "farmDetails" _) as [f | e]; [ | eauto ].
    destruct (assigned_path mongoose data "location" _) as [l | e]; [ | eauto ].
    destruct H as [[e H] | [[e H] | [e H]]]; discriminate.
  - intros data' Hsame.
    rewrite (syncUserData_object mongoose db userId data' ts u Hu).
    unfold present, assigned_path, allowedUpdates. cbn [List.filter].
    rewrite !Hsame by (unfold allowedUpdates; cbn; auto).
    reflexivity.
Qed.

Lemma syncUserData_allow_list_witness :
  exists db' : DB,
    syncUserData typed_mongoose farmer_db 7 (JObj profile_payload) 0%Z
    = (Ok (Updated ["preferences"]), db') /\
    findById db' 7
    = Some {| u_id := 7; name := "Asha"; email := "asha@example.com"; u_location := None;
              farmDetails := None;
              preferences := Some (JObj {[ "language" := JStr "hi" ]});
              isActive := true; lastSync := None |}.
Proof.
  destruct (proj1 (proj1 (proj2
    (syncUserData_allow_list typed_mongoose farmer_db 7 profile_payload 0%Z farmer
       eq_refl))
    ltac:(cbn; discriminate)
    (Some (JObj {[ "language" := JStr "hi" ]})) None None eq_refl eq_refl eq_refl)
    eq_refl) as (db' & Hrun & _ & Hfind & _).
  exists db'. split; [ exact Hrun | exact Hfind ].
Defined.

(** A [null] payload has none of the three fields, and the reconciler does
    not answer [no_changes]: reading the first field throws. *)
Lemma syncUserData_null_payload :
  findById farmer_db 7 = Some farmer /\
  (forall (mongoose : Mongoose) (ts : Date),
     syncUserData mongoose farmer_db 7 JNull ts
     = (Throw "Cannot read properties of null (reading 'preferences')", farmer_db)).
Proof. split; reflexivity. Qed.


(** *** The batch route *)

Section Batch.

Variable mongoose : Mongoose.
Variable userId : ObjectId.

Lemma processItems_length (items : list SyncItem) (db : DB) :
  length (fst (processItems mongoose db userId items)) = length items.
Proof.
  revert db. induction items as [| item rest IH]; intros db; [ reflexivity | ].
  cbn [processItems].
  destruct (processItem mongoose db userId item) as [r db1].
  specialize (IH db1).
  destruct (processItems mongoose db1 userId rest) as [rs db2].
  cbn in *. now rewrite IH.
Qed.

(** The result at position [i] is the one of item [i], run on the database
    that the items before it left behind. *)
Lemma processItems_lookup (items : list SyncItem) (db : DB) (i : nat) (item : SyncItem) :
  items !! i = Some item ->
  fst (processItems mongoose db userId items) !! i =
  Some (fst (processItem mongoose
               (snd (processItems mongoose db userId (take i items))) userId item)).
Proof.
  revert db i. induction items as [| x rest IH]; intros db i Hi; [ discriminate | ].
  cbn [processItems].
  destruct i as [| i].
  - cbn in Hi. injection Hi as ->. cbn [take processItems snd].
    destruct (processItem mongoose db userId item) as [r db1].
    destruct (processItems mongoose db1 userId rest) as [rs db2]. reflexivity.
  - cbn in Hi. cbn [take processItems].
    destruct (processItem mongoose db userId x) as [r db1].
    specialize (IH db1 i Hi).
    destruct (processItems mongoose db1 userId rest) as [rs db2].
    destruct (processItems mongoose db1 userId (take i rest)) as [rs' db2'].
    exact IH.
Qed.

Lemma status_partition (results : list ItemResult) :
  length (List.filter (fun r => String.eqb (status r) "success") results)
  + length (List.filter (fun r => String.eqb (status r) "error") results)
  = length results.
Proof.
  induction results as [| r rs IH]; [ reflexivity | ].
  destruct r; cbn in *; lia.
Qed.

End Batch.

(** C6. A batch that passes validation is answered with one result per
    item, in order, and [summary.total] is the number of items. Item [i]
    is run on the state its predecessors left, whether or not any of them
    threw: if its reconciler returns, the result is a success with that
    outcome; if it throws, the result is an error carrying the message. *)
Theorem batch_isolation (mongoose : Mongoose) (db : DB) (userId : ObjectId)
    (items : list SyncItem) (now : Date) :
  forallb itemValid items = true ->
  exists (summary : Summary) (results : list ItemResult) (db' : DB),
    batchRoute mongoose db userId (Some items) now = (BatchOk summary results, db') /\
    total summary = length items /\
    length results = length items /\
    success summary + errors summary = total summary /\
    forall (i : nat) (item : SyncItem), items !! i = Some item ->
      let db_i := snd (processItems mongoose db userId (take i items)) in
      match fst (dispatch mongoose db_i userId (type item) (data item) (timestamp item)) with
      | Ok r => results !! i = Some (ItemSuccess (type item) r)
      | Throw msg => results !! i = Some (ItemError (type item) msg)
      end.
Proof.
  intros Hvalid.
  unfold batchRoute. rewrite Hvalid. cbn [negb].
  pose proof (processItems_length mongoose userId items db) as Hlen.
  pose proof (processItems_lookup mongoose userId items db) as Hlook.
  destruct (processItems mongoose db userId items) as [results db1].
  cbn [fst] in Hlen, Hlook.
  eexists _, results, _. split; [ reflexivity | ]. cbn [total success errors].
  split; [ reflexivity | ]. split; [ exact Hlen | ].
  split; [ rewrite status_partition; exact Hlen | ].
  intros i item Hi. cbv zeta.
  rewrite (Hlook i item Hi). unfold processItem.
  destruct (dispatch mongoose _ userId (type item) (data item) (timestamp item))
    as [[r | msg] db2]; reflexivity.
Qed.

Lemma batch_isolation_witness :
  exists summary r0 r2 db',
    batchRoute typed_mongoose empty_db 9 (Some three_items) 5000%Z
      = (BatchOk summary
           [ItemSuccess "irrigation" r0; ItemError "user_data" "User not found";
            ItemSuccess "market" r2], db') /\
    total summary = 3 /\ success summary = 2 /\ errors summary = 1.
Proof.
  destruct (batch_isolation typed_mongoose empty_db 9 three_items 5000%Z)
    as (summary & results & db' & Hrun & _).
  - reflexivity.
  - vm_compute in Hrun. injection Hrun as <- <- <-.
    eexists _, _, _, _. repeat split.
Defined.


(** *** What a sync call can do to the database *)

Lemma syncDiagnosisData_effect (mongoose : Mongoose) (db : DB) (userId : ObjectId)
    (data : json) (ts : Date) :
  let '(r, db') := syncDiagnosisData mongoose db userId data ts in
  DiagnosesEffect userId ts db r db' /\ users db' = users db.
Proof.
  unfold syncDiagnosisData.
  destruct (prop data "result") as [result | e];
    [ | split; [ constructor; [ reflexivity | discriminate ] | reflexivity ] ].
  cbv zeta.
  destruct (match prop_opt result "disease" with
            | None | Some JNull => None
            | Some v => Some (castDisease mongoose v)
            end) as [[s | p msg | e] |];
    try (split; [ constructor; [ reflexivity | discriminate ] | reflexivity ]).
  - destruct (find _ (diagnoses db)) as [existing |] eqn:Hfind;
      [ split; [ constructor; [ reflexivity | discriminate ] | reflexivity ] | ].
    destruct (prop data "crop") as [c | e], (prop data "location") as [loc | e'],
             (prop data "weather") as [w | e''];
      try (split; [ constructor; [ reflexivity | discriminate ] | reflexivity ]).
    destruct (newCropDiagnosis mongoose result (crop_or_unknown c) loc w) as [paths | e];
      [ | split; [ constructor; [ reflexivity | discriminate ] | reflexivity ] ].
    destruct (String.eqb s "");
      [ split; [ constructor; [ reflexivity | discriminate ] | reflexivity ] | ].
    split; [ | reflexivity ].
    apply (effect_created userId ts db
             {| _id := nextObjectId db; user := userId;
                diagnosis := {| disease := s; confidence := p_confidence paths;
                                severity := p_severity paths;
                                details := p_details paths |};
                crop := p_crop paths; location := p_location paths;
                weather := p_weather paths; isOffline := true; createdAt := ts |});
      try reflexivity.
    now apply find_none_filter.
  - destruct (find _ (diagnoses db)) as [existing |];
      [ split; [ constructor; [ reflexivity | discriminate ] | reflexivity ] | ].
    destruct (prop data "crop") as [c | e], (prop data "location") as [loc | e'],
             (prop data "weather") as [w | e''];
      try (split; [ constructor; [ reflexivity | discriminate ] | reflexivity ]).
    destruct (newCropDiagnosis mongoose result (crop_or_unknown c) loc w);
      split; try reflexivity; constructor; try reflexivity; discriminate.
  - destruct (prop data "crop") as [c | e], (prop data "location") as [loc | e'],
             (prop data "weather") as [w | e''];
      try (split; [ constructor; [ reflexivity | discriminate ] | reflexivity ]).
    destruct (newCropDiagnosis mongoose result (crop_or_unknown c) loc w);
      split; try reflexivity; constructor; try reflexivity; discriminate.
Qed.

Lemma assignField_id (mongoose : Mongoose) (u u' : User) (kv : string * json) :
  assignField mongoose u kv = Ok u' -> u_id u' = u_id u.
Proof.
  destruct kv as [k v]. unfold assignField.
  repeat destruct (String.eqb k _);
    try destruct (castProfilePath mongoose k _ v); intros [= <-]; reflexivity.
Qed.

Lemma objectAssign_id (mongoose : Mongoose) (updates : list (string * json))
    (u u' : User) :
  objectAssign mongoose u updates = Ok u' -> u_id u' = u_id u.
Proof.
  revert u. induction updates as [| kv l IH]; intros u; cbn [objectAssign].
  - now intros [= <-].
  - destruct (assignField mongoose u kv) as [u1 |] eqn:E; [ | discriminate ].
    intros H. rewrite (IH _ H). exact (assignField_id _ _ _ _ E).
Qed.

Lemma syncUserData_effect (mongoose : Mongoose) (db : DB) (userId : ObjectId)
    (data : json) (ts : Date) :
  let '(r, db') := syncUserData mongoose db userId data ts in
  DiagnosesEffect userId ts db r db' /\
  other_users userId db' = other_users userId db /\
  map u_id (users db') = map u_id (users db).
Proof.
  unfold syncUserData.
  destruct (findById db userId) as [u |] eqn:Hu;
    [ | split; [ constructor; [ reflexivity | discriminate ] | auto ] ].
  destruct (collectUpdates allowedUpdates data) as [updates | e];
    [ | split; [ constructor; [ reflexivity | discriminate ] | auto ] ].
  destruct (0 <? length updates)%nat;
    [ | split; [ constructor; [ reflexivity | discriminate ] | auto ] ].
  destruct (objectAssign mongoose u updates) as [u' | e] eqn:Ha;
    [ | split; [ constructor; [ reflexivity | discriminate ] | auto ] ].
  destruct (userValid mongoose u');
    [ | split; [ constructor; [ reflexivity | discriminate ] | auto ] ].
  pose proof (saveUser_frame db u') as (H1 & H2 & H3).
  rewrite (objectAssign_id _ _ _ _ Ha), (findById_id _ _ _ Hu) in H1.
  split; [ constructor; [ exact H3 | discriminate ] | auto ].
Qed.

(** One reconciler call, whatever the type and the payload. *)
Lemma dispatch_effect (mongoose : Mongoose) (db : DB) (userId : ObjectId)
    (ty : string) (data : json) (ts : Date) :
  let '(r, db') := dispatch mongoose db userId ty data ts in
  DiagnosesEffect userId ts db r db' /\
  other_users userId db' = other_users userId db /\
  map u_id (users db') = map u_id (users db).
Proof.
  unfold dispatch.
  destruct (String.eqb ty "diagnosis").
  { pose proof (syncDiagnosisData_effect mongoose db userId data ts) as H.
    destruct (syncDiagnosisData mongoose db userId data ts) as [r db'].
    destruct H as [H1 H2]. unfold other_users. rewrite H2. auto. }
  destruct (String.eqb ty "irrigation").
  { unfold syncIrrigationData.
    destruct (prop data "crop"), (prop data "recommendation"), (prop data "weather");
      (split; [ constructor; [ reflexivity | discriminate ] | auto ]). }
  destruct (String.eqb ty "market").
  { unfold syncMarketData.
    destruct (prop data "queries"), (prop data "interactions");
      (split; [ constructor; [ reflexivity | discriminate ] | auto ]). }
  destruct (String.eqb ty "user_data").
  { apply syncUserData_effect. }
  split; [ constructor; [ reflexivity | discriminate ] | auto ].
Qed.


Lemma touchLastSync_frame (db : DB) (userId : ObjectId) (now : Date) :
  diagnoses (touchLastSync db userId now) = diagnoses db /\
  other_users userId (touchLastSync db userId now) = other_users userId db /\
  map u_id (users (touchLastSync db userId now)) = map u_id (users db).
Proof. unfold touchLastSync. auto. Qed.

(** What the items of a batch add up to. *)
Lemma processItems_effect (mongoose : Mongoose) (userId : ObjectId)
    (items : list SyncItem) (db : DB) :
  let '(results, db') := processItems mongoose db userId items in
  (exists added,
     diagnoses db' = diagnoses db ++ added /\
     Forall (fun d => isOffline d = true /\ user d = userId) added /\
     length added = length (List.filter created results)) /\
  other_users userId db' = other_users userId db /\
  map u_id (users db') = map u_id (users db).
Proof.
  revert db. induction items as [| item rest IH]; intros db.
  - cbn. split; [ exists []; rewrite app_nil_r; auto | auto ].
  - cbn [processItems]. unfold processItem.
    pose proof (dispatch_effect mongoose db userId (type item) (data item)
                  (timestamp item)) as Hd.
    destruct (dispatch mongoose db userId (type item) (data item) (timestamp item))
      as [r db1].
    destruct Hd as (He & Ho & Hm).
    specialize (IH db1).
    assert (Hstep : exists added1 r1,
              (let '(x, y) := match r with
                              | Ok syncResult => (ItemSuccess (type item) syncResult, db1)
                              | Throw msg => (ItemError (type item) msg, db1)
                              end in (x, y)) = (r1, db1) /\
              diagnoses db1 = diagnoses db ++ added1 /\
              Forall (fun d => isOffline d = true /\ user d = userId) added1 /\
              length added1 = (if created r1 then 1 else 0)).
    { destruct He as [r db1 Hsame Hnot | doc db1 Hadd Hoff Hu Hts _].
      - exists [], (match r with
                    | Ok syncResult => ItemSuccess (type item) syncResult
                    | Throw msg => ItemError (type item) msg
                    end).
        rewrite app_nil_r. repeat split; auto.
        + destruct r; reflexivity.
        + destruct r as [[] |]; try reflexivity. exfalso. eapply Hnot. reflexivity.
      - exists [doc], (ItemSuccess (type item) (Created (_id doc))).
        repeat split; auto. }
    destruct Hstep as (added1 & r1 & Hr1 & Hadd1 & Hall1 & Hlen1).
    assert (Hpair : match r with
                    | Ok syncResult => (ItemSuccess (type item) syncResult, db1)
                    | Throw msg => (ItemError (type item) msg, db1)
                    end = (r1, db1)).
    { destruct r; exact Hr1. }
    rewrite Hpair.
    destruct (processItems mongoose db1 userId rest) as [rs db2].
    destruct IH as ((added2 & Hadd2 & Hall2 & Hlen2) & Ho2 & Hm2).
    split; [ | split; congruence ].
    exists (added1 ++ added2).
    rewrite Hadd2, Hadd1, <- app_assoc. split; [ reflexivity | ].
    split; [ apply Forall_app; auto | ].
    rewrite length_app, Hlen1, Hlen2. cbn [List.filter].
    destruct (created r1); reflexivity.
Qed.

(** A batch only appends to the stored diagnoses, one record per item it
    answers with [created], each tagged [isOffline] and owned by the
    caller; it changes no other user's profile and adds or removes no
    user. A batch that fails validation changes nothing. *)
Theorem batch_appends_only (mongoose : Mongoose) (db : DB) (userId : ObjectId)
    (items : list SyncItem) (now : Date) :
  let '(response, db') := batchRoute mongoose db userId (Some items) now in
  (exists added,
     diagnoses db' = diagnoses db ++ added /\
     Forall (fun d => isOffline d = true /\ user d = userId) added /\
     match response with
     | BatchOk _ results => length added = length (List.filter created results)
     | _ => added = []
     end) /\
  other_users userId db' = other_users userId db /\
  map u_id (users db') = map u_id (users db) /\
  (forallb itemValid items = false -> response = ValidationError /\ db' = db).
Proof.
  unfold batchRoute.
  destruct (forallb itemValid items); cbn [negb].
  - pose proof (processItems_effect mongoose userId items db) as H.
    destruct (processItems mongoose db userId items) as [results db1].
    destruct H as ((added & Hadd & Hall & Hlen) & Ho & Hm).
    destruct (touchLastSync_frame db1 userId now) as (Hd & Ho' & Hm').
    split; [ exists added; rewrite Hd; auto | ].
    split; [ congruence | ]. split; [ congruence | discriminate ].
  - split; [ exists []; rewrite app_nil_r; auto | auto ].
Qed.


(** *** Dedup keys stay unique *)

Lemma dedup_match_key (u : ObjectId) (t : Date) (d : string) (doc : CropDiagnosis) :
  dedup_match u t (Some (JStr d)) doc = true <->
  user doc = u /\ createdAt doc = t /\ disease (diagnosis doc) = d.
Proof.
  unfold dedup_match. rewrite !andb_true_iff, Nat.eqb_eq, Z.eqb_eq, String.eqb_eq. tauto.
Qed.

Lemma DiagnosesEffect_unique (userId : ObjectId) (ts : Date) (db db' : DB)
    (r : Res SyncResult) :
  DiagnosesEffect userId ts db r db' ->
  unique_keys (diagnoses db) -> unique_keys (diagnoses db').
Proof.
  intros [r0 db0 Hsame _ | doc db0 Hadd Hoff Hu Hts Hfresh] Huniq.
  - now rewrite Hsame.
  - rewrite Hadd. intros u t d. rewrite List.filter_app, length_app. cbn [List.filter].
    destruct (dedup_match u t (Some (JStr d)) doc) eqn:E; cbn [length].
    + apply dedup_match_key in E as (E1 & E2 & E3).
      rewrite <- E1, <- E2, <- E3, Hu, Hts, Hfresh. cbn. lia.
    + specialize (Huniq u t d). lia.
Qed.

Lemma processItems_unique (mongoose : Mongoose) (userId : ObjectId)
    (items : list SyncItem) (db : DB) :
  unique_keys (diagnoses db) ->
  unique_keys (diagnoses (snd (processItems mongoose db userId items))).
Proof.
  revert db. induction items as [| item rest IH]; intros db H; [ exact H | ].
  cbn [processItems]. unfold processItem.
  pose proof (dispatch_effect mongoose db userId (type item) (data item)
                (timestamp item)) as Hd.
  destruct (dispatch mongoose db userId (type item) (data item) (timestamp item))
    as [r db1].
  destruct Hd as (He & _).
  apply DiagnosesEffect_unique in He; [ | exact H ].
  specialize (IH db1 He).
  destruct r; destruct (processItems mongoose db1 userId rest); exact IH.
Qed.

(** If no two stored diagnoses share a dedup key (user, timestamp,
    disease), none do after a sync request, single or batch, whatever it
    carries: replaying records never duplicates them. *)
Theorem sync_keeps_keys_unique (mongoose : Mongoose) (db : DB) (userId : ObjectId)
    (items : list SyncItem) (item : SyncItem) (now : Date) :
  unique_keys (diagnoses db) ->
  unique_keys (diagnoses (snd (batchRoute mongoose db userId (Some items) now))) /\
  unique_keys (diagnoses (snd (syncRoute mongoose db userId item))).
Proof.
  intros H. split.
  - unfold batchRoute. destruct (forallb itemValid items); cbn [negb]; [ | exact H ].
    pose proof (processItems_unique mongoose userId items db H) as Hp.
    destruct (processItems mongoose db userId items) as [results db1]. exact Hp.
  - unfold syncRoute, itemValid.
    destruct (in_list (type item) syncTypes); cbn [negb]; [ | exact H ].
    pose proof (dispatch_effect mongoose db userId (type item) (data item)
                  (timestamp item)) as Hd.
    destruct (dispatch mongoose db userId (type item) (data item) (timestamp item))
      as [r db1].
    destruct Hd as (He & _).
    apply DiagnosesEffect_unique in He; [ | exact H ].
    destruct r; exact He.
Qed.

Lemma sync_keeps_keys_unique_witness :
  unique_keys (diagnoses (snd (batchRoute typed_mongoose empty_db 7 (Some duplicate_items) 0%Z)))
  /\ length (diagnoses (snd (batchRoute typed_mongoose empty_db 7 (Some duplicate_items) 0%Z))) = 1.
Proof.
  split; [ | reflexivity ].
  refine (proj1 (sync_keeps_keys_unique typed_mongoose empty_db 7 duplicate_items
                   {| type := "market"; data := JNull; timestamp := 0%Z |} 0%Z _)).
  intros u t d. cbn. lia.
Defined.


(** *** The single route and the batch route *)



(** *** Clearing, replaying and counting *)

Lemma cutoff_bounds (olderThan : option string) (now : Date) :
  (now - 90 * day_ms <= cutoff olderThan now <= now - 7 * day_ms)%Z.
Proof.
  destruct olderThan as [s |].
  - unfold cutoff, day_ms.
    repeat match goal with |- context [String.eqb ?a ?b] => destruct (String.eqb a b) end;
      lia.
  - change (cutoff None now) with (now - 30 * day_ms)%Z. unfold day_ms. lia.
Qed.

Lemma filter_filter_neg {A} (f : A -> bool) (l : list A) :
  List.filter f (List.filter (fun x => negb (f x)) l) = [].
Proof.
  induction l as [| x l IH]; [ reflexivity | ].
  cbn. destruct (f x) eqn:E; cbn; [ exact IH | now rewrite E ].
Qed.

Lemma filter_neg_id {A} (f : A -> bool) (l : list A) :
  List.filter f l = [] -> List.filter (fun x => negb (f x)) l = l.
Proof.
  induction l as [| x l IH]; [ reflexivity | ].
  cbn. destruct (f x); cbn; [ discriminate | ]. intros H. now rewrite IH.
Qed.

(** Clearing is idempotent: a second call with the same parameter at the
    same time deletes nothing. The 7-day window is the widest deletion: a
    record that survives it survives a clear with any other parameter,
    and a record that survives any clear survives the 90-day one. *)
Theorem clearRoute_twice_and_nested (db : DB) (userId : ObjectId)
    (olderThan : option string) (now : Date) :
  let db1 := snd (clearRoute db userId olderThan now) in
  clearRoute db1 userId olderThan now = (ClearOk 0 (cutoff olderThan now), db1) /\
  (forall d, In d (diagnoses (snd (clearRoute db userId (Some "7d") now))) ->
             In d (diagnoses db1)) /\
  (forall d, In d (diagnoses db1) ->
             In d (diagnoses (snd (clearRoute db userId (Some "90d") now)))).
Proof.
  cbv zeta. split; [ | split ].
  - unfold clearRoute. cbn [snd diagnoses users nextObjectId].
    rewrite filter_filter_neg.
    rewrite filter_neg_id by apply filter_filter_neg. reflexivity.
  - intros d. unfold clearRoute. cbn [snd diagnoses].
    rewrite !List.filter_In, !negb_true_iff. intros [Hin Hm]. split; [ exact Hin | ].
    destruct (clear_match userId (cutoff olderThan now) d) eqn:E; [ | reflexivity ].
    apply clear_match_spec in E as (E1 & E2 & E3).
    pose proof (cutoff_bounds olderThan now) as Hb.
    assert (Hc : clear_match userId (cutoff (Some "7d") now) d = true).
    { apply clear_match_spec. repeat split; auto. cbn. lia. }
    congruence.
  - intros d. unfold clearRoute. cbn [snd diagnoses].
    rewrite !List.filter_In, !negb_true_iff. intros [Hin Hm]. split; [ exact Hin | ].
    destruct (clear_match userId (cutoff (Some "90d") now) d) eqn:E; [ | reflexivity ].
    apply clear_match_spec in E as (E1 & E2 & E3).
    pose proof (cutoff_bounds olderThan now) as Hb.
    assert (Hc : clear_match userId (cutoff olderThan now) d = true).
    { apply clear_match_spec. repeat split; auto. cbn in E2. lia. }
    congruence.
Qed.

(** The dedup of the diagnosis reconciler looks at stored records only:
    once the clear route has removed the offline-origin records that held
    a key, replaying the same record creates it again. *)
Theorem replay_after_clear_creates (mongoose : Mongoose) (db : DB) (userId : ObjectId)
    (data result : gmap string json) (v : json) (d : string) (ts : Date)
    (paths : DiagnosisPaths) (olderThan : option string) (now : Date) :
  data !! "result" = Some (JObj result) ->
  result !! "disease" = Some v -> v <> JNull ->
  castDisease mongoose v = disease_string d -> d <> "" ->
  newCropDiagnosis mongoose (Some (JObj result)) (crop_or_unknown (data !! "crop"))
                   (data !! "location") (data !! "weather") = Ok paths ->
  (ts < cutoff olderThan now)%Z ->
  (forall x, In x (diagnoses db) ->
             dedup_match userId ts (Some (JStr d)) x = true -> isOffline x = true) ->
  let db1 := snd (clearRoute db userId olderThan now) in
  exists id db2,
    syncDiagnosisData mongoose db1 userId (JObj data) ts = (Ok (Created id), db2) /\
    length (List.filter (dedup_match userId ts (Some (JStr d))) (diagnoses db2)) = 1.
Proof.
  intros Hres Hdis Hnull Hcast Hne Hpaths Hold Hoff db1.
  assert (Hnone : List.filter (dedup_match userId ts (Some (JStr d))) (diagnoses db1) = []).
  { subst db1. unfold clearRoute. cbn [snd diagnoses].
    induction (diagnoses db) as [| x l IH]; [ reflexivity | ].
    cbn [List.filter].
    assert (Hl : forall y, In y l ->
              dedup_match userId ts (Some (JStr d)) y = true -> isOffline y = true)
      by (intros y Hy; apply Hoff; now right).
    destruct (clear_match userId (cutoff olderThan now) x) eqn:E; cbn [negb].
    - apply IH. exact Hl.
    - cbn [List.filter].
      destruct (dedup_match userId ts (Some (JStr d)) x) eqn:Ek; [ | apply IH; exact Hl ].
      exfalso.
      pose proof (Hoff x (or_introl eq_refl) Ek) as Hx.
      apply dedup_match_key in Ek as (E1 & E2 & _).
      assert (clear_match userId (cutoff olderThan now) x = true).
      { apply clear_match_spec. repeat split; auto. lia. }
      congruence. }
  eexists _, _. split.
  - apply (syncDiagnosisData_created mongoose db1 userId data result v d ts paths
             Hres Hdis Hnull Hcast Hne Hpaths).
    now apply find_none_filter.
  - cbn [diagnoses]. rewrite List.filter_app, Hnone. cbn.
    unfold dedup_match. cbn. rewrite Nat.eqb_refl, Z.eqb_refl, String.eqb_refl.
    reflexivity.
Qed.

Lemma replay_after_clear_creates_witness :
  syncDiagnosisData typed_mongoose stale_db 7 (JObj blight_payload) 1000%Z
    = (Ok (Skipped "Diagnosis already exists" 0), stale_db) /\
  exists id db2,
    syncDiagnosisData typed_mongoose (snd (clearRoute stale_db 7 None hundred_days)) 7
                      (JObj blight_payload) 1000%Z
      = (Ok (Created id), db2) /\
    length (List.filter (dedup_match 7 1000%Z (Some (JStr "Blight"))) (diagnoses db2)) = 1.
Proof.
  split; [ reflexivity | ].
  apply (replay_after_clear_creates typed_mongoose stale_db 7 blight_payload blight_result
           (JStr "Blight") "Blight" 1000%Z
           {| p_confidence := 0.9; p_severity := "high"; p_details := ∅;
              p_crop := "tomato"; p_location := None; p_weather := None |}
           None hundred_days); try reflexivity; try discriminate.
  intros x [<- | []] _. reflexivity.
Defined.

Lemma since_match_spec (userId : ObjectId) (s : Date) (d : CropDiagnosis) :
  since_match userId s d = true <-> user d = userId /\ (s <= createdAt d)%Z.
Proof.
  unfold since_match. rewrite andb_true_iff, Nat.eqb_eq, Z.leb_le. tauto.
Qed.

(** The default status count looks at the last seven days and the clear
    route deletes nothing younger than seven days, so a clear, for any
    user and parameter, never changes what a later status request without
    [since] answers. *)
Theorem status_unaffected_by_clear (db : DB) (userId cleaner : ObjectId)
    (olderThan : option string) (cleared_at now : Date) :
  (cleared_at <= now)%Z ->
  statusRoute (snd (clearRoute db cleaner olderThan cleared_at)) userId since_absent now
  = statusRoute db userId since_absent now.
Proof.
  intros Hle. unfold statusRoute, clearRoute, findById. cbn [snd diagnoses users].
  f_equal.
  pose proof (cutoff_bounds olderThan cleared_at) as Hb.
  induction (diagnoses db) as [| x l IH]; [ reflexivity | ].
  cbn [List.filter].
  destruct (clear_match cleaner (cutoff olderThan cleared_at) x) eqn:E; cbn [negb].
  - destruct (since_match userId (now - 7 * day_ms)%Z x) eqn:Es; [ | exact IH ].
    apply clear_match_spec in E as (_ & E & _).
    apply since_match_spec in Es as (_ & Es). lia.
  - cbn [List.filter].
    destruct (since_match userId (now - 7 * day_ms)%Z x); cbn [length]; now rewrite IH.
Qed.

Lemma status_unaffected_by_clear_witness :
  statusRoute (snd (clearRoute stale_db 7 (Some "7d") hundred_days)) 7 since_absent
              hundred_days
  = StatusOk None 0.
Proof.
  rewrite (status_unaffected_by_clear stale_db 7 7 (Some "7d") hundred_days hundred_days).
  - reflexivity.
  - unfold hundred_days, day_ms. lia.
Defined.

(** The status count after a diagnosis sync: one more when the call
    created a record whose timestamp is not before [since], unchanged when
    it was skipped or threw. The count does not tell offline-origin records
    from others, nor synced from unsynced. *)
Theorem status_after_sync (mongoose : Mongoose) (db : DB) (userId : ObjectId)
    (data : json) (ts s now : Date) :
  let '(r, db') := syncDiagnosisData mongoose db userId data ts in
  exists (l : option Date) (n : nat),
    statusRoute db userId (since_date s) now = StatusOk l n /\
    statusRoute db' userId (since_date s) now
    = StatusOk l (n + match r with
                      | Ok (Created _) => if (s <=? ts)%Z then 1 else 0
                      | _ => 0
                      end).
Proof.
  pose proof (syncDiagnosisData_effect mongoose db userId data ts) as H.
  destruct (syncDiagnosisData mongoose db userId data ts) as [r db'].
  destruct H as [He Hu].
  unfold statusRoute, findById. rewrite Hu.
  eexists _, _. split; [ reflexivity | ]. f_equal.
  destruct He as [r db' Hsame Hnot | doc db' Hadd Hoff Hus Hts _].
  - rewrite Hsame. destruct r as [[] |]; try lia. exfalso. eapply Hnot. reflexivity.
  - rewrite Hadd, List.filter_app, length_app. f_equal. cbn [List.filter].
    unfold since_match. rewrite Hus, Hts, Nat.eqb_refl. cbn [andb].
    destruct (s <=? ts)%Z; reflexivity.
Qed.


(** *** The auth middleware *)

Lemma substring_all (s : string) : substring 0 (String.length s) s = s.
Proof. induction s as [| c s IH]; cbn; [ reflexivity | now rewrite IH ]. Qed.

Lemma remove_first_Bearer (t : string) : remove_first "Bearer " ("Bearer " +:+ t) = t.
Proof.
  simpl. change ("" +:+ t) with t.
  assert (H : String.prefix "" t = true) by (destruct t; reflexivity).
  rewrite H, Nat.sub_0_r. apply substring_all.
Qed.

(** A request passes [auth] exactly when its header, with the first
    ["Bearer "] taken out, is a non-empty token that [jwt.verify] decodes
    to the id of a stored, active user; that id is what the routes then use
    as [req.user.userId]. A missing header and a header that is only
    ["Bearer "] get a 401, and so does a decodable token of an unknown or
    inactive user. A bare token is treated like one with the scheme in
    front. *)
Theorem auth_lets_through (verify : string -> VerifyResult) (db : DB)
    (authorization : option string) (userId : option ObjectId) :
  (auth verify db authorization = Next userId <->
   exists header uid u,
     authorization = Some header /\ userId = Some uid /\
     remove_first "Bearer " header <> "" /\
     verify (remove_first "Bearer " header) = Decoded (Some uid) /\
     findById db uid = Some u /\ isActive u = true) /\
  auth verify db None = Status401 "Access Denied" /\
  auth verify db (Some "Bearer ") = Status401 "Access Denied" /\
  (forall t, remove_first "Bearer " t = t ->
             auth verify db (Some t) = auth verify db (Some ("Bearer " +:+ t))).
Proof.
  split; [ | split; [ reflexivity | split; [ reflexivity | ] ] ].
  - unfold auth. split.
    + destruct authorization as [header |]; cbn [option_map]; [ | discriminate ].
      destruct (String.eqb_spec (remove_first "Bearer " header) "") as [E | E];
        [ discriminate | ].
      destruct (verify (remove_first "Bearer " header)) as [[uid |] | | |] eqn:V;
        try discriminate.
      destruct (findById db uid) as [u |] eqn:F; [ | discriminate ].
      destruct (isActive u) eqn:A; [ | discriminate ].
      intros [= <-]. exists header, uid, u. repeat split; assumption.
    + intros (header & uid & u & -> & -> & E & V & F & A). cbn [option_map].
      apply String.eqb_neq in E. rewrite E, V, F, A. reflexivity.
  - intros t E. unfold auth. cbn [option_map]. now rewrite remove_first_Bearer, E.
Qed.

Lemma auth_lets_through_witness :
  auth one_token farmer_db (Some "Bearer secret-token") = Next (Some 7) /\
  auth one_token empty_db (Some "Bearer secret-token") = Status401 "Invalid Token" /\
  auth one_token farmer_db (Some "secret-token") = Next (Some 7).
Proof.
  split; [ | split; reflexivity ].
  apply (proj1 (auth_lets_through one_token farmer_db (Some "Bearer secret-token")
                  (Some 7))).
  exists "Bearer secret-token", 7, farmer. repeat split. discriminate.
Defined.


(** *** The logging reconcilers *)

(** The irrigation and market reconcilers never write to the database and
    throw on a [null] payload only. For any other payload the outcome is
    [logged] with the request's timestamp. The irrigation log has the
    payload's [crop], [recommendation] and [weather] as they are, missing
    ones included. The market log always has both [queries] and
    [interactions]: the payload's value when it is truthy, and an empty
    array when it is missing or falsy, that is [null], [false], [0] or the
    empty string. A payload that is not an object has none of the
    fields. *)
Theorem log_reconcilers (db : DB) (userId : ObjectId) (data : json) (ts : Date) :
  snd (syncIrrigationData db userId data ts) = db /\
  snd (syncMarketData db userId data ts) = db /\
  (data = JNull ->
   (exists e, fst (syncIrrigationData db userId data ts) = Throw e) /\
   (exists e, fst (syncMarketData db userId data ts) = Throw e)) /\
  (data <> JNull ->
   (exists c r w,
      fst (syncIrrigationData db userId data ts)
      = Ok (Logged ts [("crop", c); ("recommendation", r); ("weather", w)]) /\
      (forall m, data = JObj m ->
                 c = m !! "crop" /\ r = m !! "recommendation" /\ w = m !! "weather") /\
      ((forall m, data <> JObj m) -> c = None /\ r = None /\ w = None)) /\
   (exists q i,
      fst (syncMarketData db userId data ts)
      = Ok (Logged ts [("queries", Some q); ("interactions", Some i)]) /\
      (forall m, data = JObj m ->
                 (truthy (m !! "queries") = true -> m !! "queries" = Some q) /\
                 (truthy (m !! "queries") = false -> q = JArr []) /\
                 (truthy (m !! "interactions") = true -> m !! "interactions" = Some i) /\
                 (truthy (m !! "interactions") = false -> i = JArr [])) /\
      ((forall m, data <> JObj m) -> q = JArr [] /\ i = JArr []))) /\
  (forall v : option json,
     truthy v = false <->
     v = None \/ v = Some JNull \/ v = Some (JBool false) \/ v = Some (JStr "") \/
     exists n, (n == 0)%Q /\ v = Some (JNum n)).
Proof.
  split; [ | split; [ | split; [ | split ] ] ].
  - unfold syncIrrigationData.
    destruct (prop data "crop"), (prop data "recommendation"), (prop data "weather");
      reflexivity.
  - unfold syncMarketData.
    destruct (prop data "queries"), (prop data "interactions"); reflexivity.
  - intros ->. split; eexists; reflexivity.
  - intros Hnull. unfold syncIrrigationData, syncMarketData.
    destruct data as [| b | n | s | l | m]; [ congruence | | | | | ]; cbn [prop fst].
    1-4: split;
      [ exists None, None, None; split; [ reflexivity | split; [ discriminate | auto ] ]
      | exists (JArr []), (JArr []);
        split; [ reflexivity | split; [ discriminate | auto ] ] ].
    split.
    + exists (m !! "crop"), (m !! "recommendation"), (m !! "weather").
      split; [ reflexivity | ].
      split; [ intros m' [= <-]; auto | ].
      intros H. exfalso. exact (H m eq_refl).
    + unfold or_empty_array.
      destruct (truthy (m !! "queries")) eqn:Eq, (truthy (m !! "interactions")) eqn:Ei;
        destruct (m !! "queries") as [q |] eqn:Hq; try discriminate Eq;
        destruct (m !! "interactions") as [i |] eqn:Hi; try discriminate Ei;
        eexists _, _; (split; [ reflexivity | ]);
        (split; [ intros m' [= <-]; rewrite ?Hq, ?Hi, ?Eq, ?Ei;
                  repeat split; congruence
                | intros H; exfalso; exact (H m eq_refl) ]).
  - intros v. split.
    + destruct v as [[| [] | n | s | l | m] |]; cbn; try discriminate; eauto 6.
      * rewrite negb_false_iff. intros H. apply Qeq_bool_iff in H. eauto 8.
      * rewrite negb_false_iff. intros H. apply String.eqb_eq in H. subst. eauto 6.
    + intros [-> | [-> | [-> | [-> | (n & Hn & ->)]]]]; try reflexivity.
      cbn. apply negb_false_iff, Qeq_bool_iff. exact Hn.
Qed.

End ServerFacts.


(** ** The offline provider *)
Module ClientFacts.
Import Client.

(** *** Object stores keep their records in key order *)

Lemma compare_lt_trans (a b c : string) :
  String.compare a b = Lt -> String.compare b c = Lt -> String.compare a c = Lt.
Proof.
  intros H1 H2.
  apply OrderedTypeEx.String_as_OT.cmp_lt.
  eapply OrderedTypeEx.String_as_OT.lt_trans;
    apply OrderedTypeEx.String_as_OT.cmp_lt; eassumption.
Qed.

Lemma compare_gt_lt (a b : string) :
  String.compare a b = Gt -> String.compare b a = Lt.
Proof.
  intros H. rewrite String.compare_antisym, H. reflexivity.
Qed.

Lemma store_add_Forall (P : OfflineData -> Prop) (s s' : Store) (r : OfflineData) :
  store_add s r = Some s' -> P r -> Forall P s -> Forall P s'.
Proof.
  revert s'. induction s as [| x rest IH]; cbn; intros s' Hadd Hr Hs.
  - injection Hadd as <-. auto.
  - destruct (String.compare (id r) (id x)); [ discriminate | | ].
    + injection Hadd as <-. auto.
    + destruct (store_add rest r) as [rest' |]; [ | discriminate ].
      injection Hadd as <-. inversion Hs; subst. constructor; eauto.
Qed.

Lemma store_add_ascending (s s' : Store) (r : OfflineData) :
  ids_ascending s -> store_add s r = Some s' -> ids_ascending s'.
Proof.
  unfold ids_ascending. revert s'.
  induction s as [| x rest IH]; cbn; intros s' Hs Hadd.
  - injection Hadd as <-. repeat constructor.
  - inversion Hs as [| ? ? Hrest Hx]; subst.
    destruct (String.compare (id r) (id x)) eqn:E; [ discriminate | | ].
    + injection Hadd as <-. constructor; [ exact Hs | ].
      constructor; [ exact E | ].
      eapply List.Forall_impl; [ | exact Hx ].
      intros y Hy. eapply compare_lt_trans; eassumption.
    + destruct (store_add rest r) as [rest' |] eqn:Er; [ | discriminate ].
      injection Hadd as <-. constructor; [ eauto | ].
      eapply store_add_Forall; [ exact Er | now apply compare_gt_lt | exact Hx ].
Qed.

Lemma store_delete_ascending (s : Store) (k : string) :
  ids_ascending s -> ids_ascending (store_delete s k).
Proof.
  unfold ids_ascending, store_delete.
  induction 1 as [| x rest Hrest IH Hx]; cbn; [ constructor | ].
  destruct (negb _); [ | exact IH ].
  constructor; [ exact IH | ].
  apply List.Forall_forall. intros y Hy. apply List.filter_In in Hy as [Hy _].
  rewrite List.Forall_forall in Hx. auto.
Qed.

Lemma store_add_In (s s' : Store) (r : OfflineData) :
  store_add s r = Some s' -> In r s'.
Proof.
  revert s'. induction s as [| x rest IH]; cbn; intros s' Hadd.
  - injection Hadd as <-. now left.
  - destruct (String.compare (id r) (id x)); [ discriminate | | ].
    + injection Hadd as <-. now left.
    + destruct (store_add rest r) as [rest' |]; [ | discriminate ].
      injection Hadd as <-. right. eauto.
Qed.

(** *** Delivery attempts *)

Lemma syncDataItem_success (fetch : Network) (c : State) (item : OfflineData) :
  fst (syncDataItem fetch c item) = delivered fetch item.
Proof.
  unfold syncDataItem, delivered.
  destruct (fetch (request_of item)) as [[|] |]; cbn; [ | reflexivity | reflexivity ].
  destruct (db c); reflexivity.
Qed.

Lemma syncDataItem_frame (fetch : Network) (c : State) (item : OfflineData) :
  let c' := snd (syncDataItem fetch c item) in
  requests c' = requests c ++ [request_of item] /\
  pendingSync c' = pendingSync c /\ isOnline c' = isOnline c /\ db c' = db c.
Proof.
  unfold syncDataItem. cbv zeta.
  destruct (fetch (request_of item)) as [[|] |]; cbn [db send];
    [ destruct (db c) eqn:E | | ]; cbn; rewrite ?E; auto.
Qed.

(** A failed attempt changes nothing but the request log. *)
Lemma syncDataItem_failed (fetch : Network) (c : State) (item : OfflineData) :
  delivered fetch item = false ->
  snd (syncDataItem fetch c item) = send c (request_of item).
Proof.
  unfold syncDataItem, delivered.
  destruct (fetch (request_of item)) as [[|] |]; [ discriminate | reflexivity | reflexivity ].
Qed.

Lemma syncAll_spec (fetch : Network) (items : list OfflineData) (c : State) :
  fst (syncAll fetch c items) = map (fun item => (item, delivered fetch item)) items /\
  requests (snd (syncAll fetch c items)) = requests c ++ map request_of items.
Proof.
  revert c. induction items as [| item rest IH]; intros c.
  - cbn. now rewrite app_nil_r.
  - cbn [syncAll map].
    pose proof (syncDataItem_success fetch c item) as Hs.
    pose proof (syncDataItem_frame fetch c item) as (Hr & _).
    destruct (syncDataItem fetch c item) as [ok c1]. cbn [fst snd] in *.
    destruct (IH c1) as [IH1 IH2].
    destruct (syncAll fetch c1 rest) as [results c2]. cbn [fst snd] in *.
    rewrite IH1, IH2, Hr, Hs, <- app_assoc. auto.
Qed.

Lemma syncPendingData_spec (fetch : Network) (c : State) :
  guards_pass c ->
  requests (syncPendingData fetch c) = requests c ++ map request_of (pendingSync c) /\
  pendingSync (syncPendingData fetch c)
    = List.filter (fun item => negb (delivered fetch item)) (pendingSync c).
Proof.
  intros (Hon & Hdb & Hne). unfold syncPendingData. rewrite Hon, Hdb.
  destruct (pendingSync c) as [| p ps] eqn:Ep; [ congruence | ].
  cbn [negb orb length Nat.eqb].
  destruct (syncAll_spec fetch (p :: ps) c) as [H1 H2].
  destruct (syncAll fetch c (p :: ps)) as [results c1]. cbn [fst snd] in *.
  split; [ cbn; exact H2 | ].
  cbn [pendingSync setPendingSync]. rewrite H1.
  clear. induction (p :: ps) as [| x l IH]; [ reflexivity | ].
  cbn. destruct (delivered fetch x); cbn; now rewrite ?IH.
Qed.

Lemma syncPendingData_idle (fetch : Network) (c : State) :
  ~ guards_pass c -> syncPendingData fetch c = c.
Proof.
  unfold guards_pass, syncPendingData. intros H.
  destruct (isOnline c); [ | reflexivity ].
  destruct (db c); [ | reflexivity ].
  destruct (pendingSync c); [ reflexivity | ].
  exfalso. apply H. repeat split; congruence.
Qed.

(** A record that a drain could not deliver stays in the pending list. *)
Lemma syncPendingData_keeps_failed (fetch : Network) (c : State) (item : OfflineData) :
  In item (pendingSync c) -> delivered fetch item = false ->
  In item (pendingSync (syncPendingData fetch c)).
Proof.
  intros Hin Hfail.
  destruct (isOnline c) eqn:Hon, (db c) eqn:Hdb;
    try (rewrite syncPendingData_idle; [ exact Hin | intros (? & ? & ?); congruence ]).
  assert (Hg : guards_pass c).
  { repeat split; auto. intros E. rewrite E in Hin. destruct Hin. }
  destruct (syncPendingData_spec fetch c Hg) as [_ ->].
  apply List.filter_In. split; [ exact Hin | now rewrite Hfail ].
Qed.


Lemma syncDataItem_ascending (fetch : Network) (c : State) (item : OfflineData) :
  ids_ascending (pendingSyncStore (storage c)) ->
  ids_ascending (pendingSyncStore (storage (snd (syncDataItem fetch c item)))).
Proof.
  intros H. unfold syncDataItem. cbv zeta.
  destruct (fetch (request_of item)) as [[|] |]; cbn [db send];
    [ destruct (db c) | | ]; cbn; auto.
  now apply store_delete_ascending.
Qed.

Lemma saveOfflineData_ascending (fetch : Network) (c : State) (ty : string)
    (d : Server.json) (now_id : Z) (rnd : string) (now : Z) :
  ids_ascending (pendingSyncStore (storage c)) ->
  ids_ascending (pendingSyncStore (storage (saveOfflineData fetch c ty d now_id rnd now))).
Proof.
  intros H. unfold saveOfflineData. cbv zeta.
  destruct (db c); cbn [negb]; [ | exact H ].
  destruct (store_add (offlineData (storage c)) _) as [store1 |]; [ | exact H ].
  cbn [isOnline setStorage storage pendingSyncStore offlineData].
  destruct (isOnline c); cbn [negb].
  - apply syncDataItem_ascending. exact H.
  - destruct (store_add (pendingSyncStore (storage c)) _) as [store2 |] eqn:E.
    + cbn. eapply store_add_ascending; eassumption.
    + exact H.
Qed.

Lemma syncAll_ascending (fetch : Network) (items : list OfflineData) (c : State) :
  ids_ascending (pendingSyncStore (storage c)) ->
  ids_ascending (pendingSyncStore (storage (snd (syncAll fetch c items)))).
Proof.
  revert c. induction items as [| item rest IH]; intros c H; [ exact H | ].
  cbn [syncAll].
  pose proof (syncDataItem_ascending fetch c item H) as H1.
  destruct (syncDataItem fetch c item) as [ok c1]. cbn [snd] in H1.
  specialize (IH c1 H1).
  destruct (syncAll fetch c1 rest) as [results c2]. exact IH.
Qed.

Lemma syncPendingData_ascending (fetch : Network) (c : State) :
  ids_ascending (pendingSyncStore (storage c)) ->
  ids_ascending (pendingSyncStore (storage (syncPendingData fetch c))).
Proof.
  intros H. unfold syncPendingData.
  destruct (negb (isOnline c) || negb (db c) || (length (pendingSync c) =? 0)%nat);
    [ exact H | ].
  pose proof (syncAll_ascending fetch (pendingSync c) c H) as H1.
  destruct (syncAll fetch c (pendingSync c)) as [results c1]. exact H1.
Qed.

(** Whatever the provider has done since the first visit, the pending
    store lists its records in ascending id order. *)
Lemma run_ascending (ops : list Op) (c : State) :
  ids_ascending (pendingSyncStore (storage c)) ->
  ids_ascending (pendingSyncStore (storage (run c ops))).
Proof.
  unfold run. revert c. induction ops as [| op ops IH]; intros c H; [ exact H | ].
  cbn [fold_left]. apply IH.
  destruct op as [fetch ty d now_id rnd now | fetch | now | e | online opened];
    cbn [step].
  - now apply saveOfflineData_ascending.
  - now apply syncPendingData_ascending.
  - unfold clearSyncedData. destruct (db c); exact H.
  - destruct e as [| | opened]; cbn [onEvent];
      [ unfold handleOnline; cbn [forceOffline setNavigatorOnLine]
      | unfold handleOffline
      | unfold initDB, toggleOnlineMode; destruct opened ];
      try destruct (forceOffline c); exact H.
  - unfold initDB. destruct opened; exact H.
Qed.

(** The loop of [clearSyncedData], run on a list of records, removes from
    the store the records whose id belongs to a listed record older than a
    week, and only those. *)
Lemma deleteOld_In (now : Z) (items : list OfflineData) (store : Store) (x : OfflineData) :
  In x (deleteOld now store items) <->
  In x store /\
  ~ exists item, In item items /\ (timestamp item < now - 7 * day_ms)%Z /\ id item = id x.
Proof.
  unfold deleteOld. revert store.
  induction items as [| item rest IH]; intros store; cbn [fold_left].
  - split; [ intros H; split; [ exact H | intros (? & [] & _) ] | tauto ].
  - rewrite IH. destruct (Z.ltb_spec (timestamp item) (now - 7 * day_ms)) as [Hold | Hnew].
    + unfold store_delete. rewrite List.filter_In, negb_true_iff, String.eqb_neq.
      split.
      * intros [[Hx Hid] Hno]. split; [ exact Hx | ].
        intros (y & [-> | Hy] & Ht & Hy'); [ congruence | ].
        apply Hno. eauto.
      * intros [Hx Hno]. split; [ split; [ exact Hx | ] | ].
        -- intros E. apply Hno. exists item. cbn. auto.
        -- intros (y & Hy & Ht & Hy'). apply Hno. exists y. cbn. auto.
    + split.
      * intros [Hx Hno]. split; [ exact Hx | ].
        intros (y & [-> | Hy] & Ht & Hy'); [ lia | ].
        apply Hno. eauto.
      * intros [Hx Hno]. split; [ exact Hx | ].
        intros (y & Hy & Ht & Hy'). apply Hno. exists y. cbn. auto.
Qed.

(** The state the provider reports is the browser's, unless the user forced
    it offline. *)
Lemma onEvent_effective (c : State) (e : Event) :
  isOnline c = navigatorOnLine c && negb (forceOffline c) ->
  isOnline (onEvent c e) = navigatorOnLine (onEvent c e) && negb (forceOffline (onEvent c e)).
Proof.
  intros H. destruct e; cbn.
  - unfold handleOnline. cbn. destruct (forceOffline c) eqn:F; cbn; rewrite ?F.
    + rewrite H, andb_false_r. reflexivity.
    + reflexivity.
  - reflexivity.
  - unfold initDB, toggleOnlineMode. destruct opened, (forceOffline c); cbn;
      now rewrite ?andb_true_r, ?andb_false_r.
Qed.

(** C3, on the code. A record saved while online whose immediate delivery
    fails is written to the offline store unsynced and the request is sent
    once, but the record enters neither the pending list nor the pending
    store; a later drain sends requests for the earlier pending list only.
    (A record that fails during a drain does stay pending:
    [syncPendingData_keeps_failed].) *)
Theorem failed_online_save_not_queued (fetch : Network) (c : State) (ty : string)
    (d : Server.json) (now_id : Z) (rnd : string) (now : Z) :
  db c = true -> isOnline c = true ->
  let item := {| id := ty +:+ "_" +:+ dec now_id +:+ "_" +:+ rnd; type := ty;
                 data := d; timestamp := now; synced := false |} in
  delivered fetch item = false ->
  let c' := saveOfflineData fetch c ty d now_id rnd now in
  pendingSync c' = pendingSync c /\
  pendingSyncStore (storage c') = pendingSyncStore (storage c) /\
  (forall store1, store_add (offlineData (storage c)) item = Some store1 ->
     offlineData (storage c') = store1 /\ In item (offlineData (storage c')) /\
     requests c' = requests c ++ [request_of item]) /\
  (forall fetch',
     requests (syncPendingData fetch' c') = requests c' \/
     requests (syncPendingData fetch' c')
       = requests c' ++ map request_of (pendingSync c)).
Proof.
  intros Hdb Hon item Hfail c'.
  assert (Hc' : c' = match store_add (offlineData (storage c)) item with
                     | None => c
                     | Some store1 =>
                         send (setStorage c {| offlineData := store1;
                                 pendingSyncStore := pendingSyncStore (storage c) |})
                              (request_of item)
                     end).
  { subst c'. unfold saveOfflineData. rewrite Hdb. cbn [negb]. cbv zeta. fold item.
    destruct (store_add (offlineData (storage c)) item) as [store1 |]; [ | reflexivity ].
    cbn [isOnline setStorage]. rewrite Hon. cbn [negb].
    now rewrite syncDataItem_failed. }
  assert (Hp : pendingSync c' = pendingSync c).
  { rewrite Hc'. destruct (store_add _ item); reflexivity. }
  split; [ exact Hp | ]. split.
  { rewrite Hc'. destruct (store_add _ item); reflexivity. }
  split.
  - intros store1 Hadd. rewrite Hc', Hadd. cbn.
    split; [ reflexivity | ]. split; [ eapply store_add_In; eassumption | reflexivity ].
  - intros fetch'.
    destruct (isOnline c') eqn:Hon', (db c') eqn:Hdb';
      try (left; rewrite syncPendingData_idle;
           [ reflexivity | intros (? & ? & ?); congruence ]).
    destruct (pendingSync c') as [| p ps] eqn:Ep.
    + left. rewrite syncPendingData_idle; [ reflexivity | intros (? & ? & ?); congruence ].
    + right.
      destruct (syncPendingData_spec fetch' c') as [-> _]; [ | now rewrite Ep, <- Hp ].
      repeat split; auto. congruence.
Qed.


Lemma failed_online_save_not_queued_witness :
  pendingSync after_failed_save = [] /\
  pendingSyncStore (storage after_failed_save) = [] /\
  map synced (offlineData (storage after_failed_save)) = [false] /\
  length (requests after_failed_save) = 1 /\
  syncPendingData reliable after_failed_save = after_failed_save.
Proof.
  destruct (failed_online_save_not_queued unreachable online_idle "diagnosis"
              some_data 500 "q1w2e3r4t" 500) as (H1 & H2 & H3 & _).
  - reflexivity.
  - reflexivity.
  - reflexivity.
  - split; [ exact H1 | ]. split; [ exact H2 | ].
    split; [ reflexivity | ]. split; [ reflexivity | ].
    apply syncPendingData_idle. intros (_ & _ & H). apply H. exact H1.
Defined.

(** C4 as stated fails: after a page load the pending list is read from
    the store in id order, so the diagnosis queued at time 300 is sent
    before the market record queued at time 200. *)
Lemma drain_not_chronological :
  guards_pass reloaded_online /\
  map timestamp (pendingSync offline_session) = [200; 300]%Z /\
  map timestamp (pendingSync reloaded_online) = [300; 200]%Z /\
  map rq_type (requests (syncPendingData reliable reloaded_online))
    = ["diagnosis"; "market"] /\
  map rq_timestamp (requests (syncPendingData reliable reloaded_online))
    = [300; 200]%Z.
Proof.
  split; [ | repeat split ].
  repeat split. discriminate.
Qed.

(** C4, as the code has it. A drain sends one request per record of the
    pending list, in list order, whatever the types and timestamps. After a
    page load the list is the pending store as [getAll] returns it, in
    ascending id order; a record saved offline goes to the end of the list,
    or is not added when the store refuses its key. *)
Theorem drain_follows_pending_list :
  (forall (fetch : Network) (c : State),
     guards_pass c ->
     requests (syncPendingData fetch c) = requests c ++ map request_of (pendingSync c)) /\
  (forall (online opened online' : bool) (ops : list Op),
     let before := run (first_visit online opened) ops in
     let c := step before (Reload online' true) in
     pendingSync c = pendingSyncStore (storage before) /\
     ids_ascending (pendingSync c)) /\
  (forall (fetch : Network) (c : State) (ty : string) (d : Server.json)
          (now_id : Z) (rnd : string) (now : Z),
     db c = true -> isOnline c = false ->
     let item := {| id := ty +:+ "_" +:+ dec now_id +:+ "_" +:+ rnd; type := ty;
                    data := d; timestamp := now; synced := false |} in
     let c' := saveOfflineData fetch c ty d now_id rnd now in
     (pendingSync c' = pendingSync c ++ [item] \/ pendingSync c' = pendingSync c) /\
     requests c' = requests c).
Proof.
  split; [ | split ].
  - intros fetch c Hg. now destruct (syncPendingData_spec fetch c Hg).
  - intros online opened online' ops before c. split; [ reflexivity | ].
    apply run_ascending. unfold first_visit, initDB.
    destruct opened; constructor.
  - intros fetch c ty d now_id rnd now Hdb Hoff item c'.
    subst c'. unfold saveOfflineData. rewrite Hdb. cbn [negb]. cbv zeta. fold item.
    destruct (store_add (offlineData (storage c)) item) as [store1 |]; [ | auto ].
    cbn [isOnline setStorage storage pendingSyncStore offlineData]. rewrite Hoff.
    cbn [negb].
    destruct (store_add (pendingSyncStore (storage c)) item) as [store2 |]; cbn; auto.
Qed.

Lemma drain_follows_pending_list_witness :
  requests (syncPendingData reliable reloaded_online)
  = map request_of (pendingSync reloaded_online).
Proof.
  refine (proj1 drain_follows_pending_list reliable reloaded_online _).
  repeat split. discriminate.
Defined.

(** C5, on the code. No connectivity event sends a request or writes to
    the stores. The window's events leave the pending list as it is; a
    toggle runs [initDB] again, which reads the list back from the pending
    store and sends nothing either. In the sample session two records are
    pending when the browser comes back online, and again when the user
    lifts a forced-offline mode: [isOnline] turns true and nothing is sent,
    though a drain at that point would send both. *)
Theorem going_online_does_not_drain :
  (forall (c : State) (e : Event),
     requests (onEvent c e) = requests c /\
     storage (onEvent c e) = storage c /\
     pendingSync (onEvent c e)
     = match e with
       | Toggle true => pendingSyncStore (storage c)
       | _ => pendingSync c
       end) /\
  let c := offline_session in
  let c1 := onEvent c OsOnline in
  let c2 := onEvent c1 (Toggle true) in
  let c3 := onEvent c2 (Toggle true) in
  isOnline c = false /\ isOnline c1 = true /\
  isOnline c2 = false /\ isOnline c3 = true /\
  guards_pass c1 /\ guards_pass c3 /\
  length (pendingSync c1) = 2 /\ requests c1 = [] /\
  length (pendingSync c3) = 2 /\ requests c3 = [] /\
  length (requests (syncPendingData reliable c1)) = 2.
Proof.
  split.
  - intros c e. destruct e as [| | opened]; cbn.
    + unfold handleOnline. cbn. destruct (forceOffline c); auto.
    + auto.
    + unfold initDB, toggleOnlineMode. destruct opened, (forceOffline c); auto.
  - cbv zeta. repeat split; discriminate.
Qed.

(** C8, on the code. [IDBKeyRange.only(true)] throws, because a boolean is
    not a key, and the [catch] ends the call: no record is removed, pending
    or synced. In the sample store a record synced at time 0 is still there
    eight days later. (The loop itself removes the old records it is
    given: [deleteOld_In].) *)
Theorem clearSyncedData_removes_nothing :
  (forall (c : State) (now : Z), clearSyncedData c now = c) /\
  IDBKeyRange_only (VBoolean true) = None /\
  let c := with_old_synced in
  db c = true /\
  In old_synced (offlineData (storage c)) /\
  synced old_synced = true /\
  (timestamp old_synced < eight_days - 7 * day_ms)%Z /\
  In old_synced (offlineData (storage (clearSyncedData c eight_days))).
Proof.
  split; [ | split; [ reflexivity | ] ].
  - intros c now. unfold clearSyncedData. destruct (db c); reflexivity.
  - cbv zeta. repeat split; now left.
Qed.


(** *** More on object stores *)

Lemma compare_refl (a : string) : String.compare a a = Eq.
Proof. now apply OrderedTypeEx.String_as_OT.cmp_eq. Qed.

Lemma store_put_In (s : Store) (r : OfflineData) : In r (store_put s r).
Proof.
  induction s as [| x rest IH]; cbn; [ now left | ].
  destruct (String.compare (id r) (id x)); cbn; auto.
Qed.

Lemma store_put_from (s : Store) (r y : OfflineData) :
  In y (store_put s r) -> y = r \/ In y s.
Proof.
  induction s as [| x rest IH]; cbn.
  - intros [<- | []]. now left.
  - destruct (String.compare (id r) (id x)); cbn.
    + intros [<- | H]; auto.
    + intros [<- | H]; auto.
    + intros [<- | H]; auto. destruct (IH H); auto.
Qed.

(** [put] keeps every record but those it replaces, which have the id of
    the new one. *)
Lemma store_put_keeps (s : Store) (r x : OfflineData) :
  In x s -> In x (store_put s r) \/ id x = id r.
Proof.
  induction s as [| y rest IH]; cbn; [ intros [] | ].
  destruct (String.compare (id r) (id y)) eqn:E; cbn.
  - intros [<- | H]; [ right | left; now right ].
    symmetry. now apply String.compare_eq_iff.
  - intros H. left. now right.
  - intros [<- | H]; [ left; now left | ].
    destruct (IH H); [ left; now right | now right ].
Qed.

Lemma store_add_keeps (s s' : Store) (r x : OfflineData) :
  store_add s r = Some s' -> (In x s' <-> x = r \/ In x s).
Proof.
  revert s'. induction s as [| y rest IH]; cbn; intros s' Hadd.
  - injection Hadd as <-. cbn. intuition.
  - destruct (String.compare (id r) (id y)); [ discriminate | | ].
    + injection Hadd as <-. cbn. intuition.
    + destruct (store_add rest r) as [rest' |]; [ | discriminate ].
      injection Hadd as <-. cbn. rewrite (IH rest' eq_refl). intuition.
Qed.

Lemma store_delete_In (s : Store) (k : string) (x : OfflineData) :
  In x (store_delete s k) <-> In x s /\ id x <> k.
Proof.
  unfold store_delete. rewrite List.filter_In, negb_true_iff, String.eqb_neq. tauto.
Qed.

Lemma ascending_head (x : OfflineData) (rest : Store) (y : OfflineData) :
  ids_ascending (x :: rest) -> In y rest -> String.compare (id x) (id y) = Lt.
Proof.
  intros H Hy. inversion H as [| ? ? _ Hx]; subst.
  rewrite List.Forall_forall in Hx. auto.
Qed.

(** In a store in key order, [add] succeeds only for a new id. *)
Lemma store_add_fresh (s s' : Store) (r x : OfflineData) :
  ids_ascending s -> store_add s r = Some s' -> In x s -> id x <> id r.
Proof.
  revert s'. induction s as [| y rest IH]; cbn; intros s' Hs Hadd Hx; [ destruct Hx | ].
  destruct (String.compare (id r) (id y)) eqn:E; [ discriminate | | ].
  - intros Heq. destruct Hx as [<- | Hx].
    + rewrite Heq, compare_refl in E. discriminate.
    + pose proof (ascending_head _ _ _ Hs Hx) as H1.
      pose proof (compare_lt_trans _ _ _ E H1) as H2.
      rewrite Heq, compare_refl in H2. discriminate.
  - destruct (store_add rest r) as [rest' |] eqn:Er; [ | discriminate ].
    destruct Hx as [<- | Hx].
    + intros Heq. rewrite Heq, compare_refl in E. discriminate.
    + inversion Hs; subst. eapply IH; eauto.
Qed.

(** In a store in key order, the record [put] stores is the only one with
    its id. *)
Lemma store_put_only (s : Store) (r y : OfflineData) :
  ids_ascending s -> In y (store_put s r) -> id y = id r -> y = r.
Proof.
  induction s as [| x rest IH]; cbn; intros Hs Hy Hid.
  - destruct Hy as [<- | []]. reflexivity.
  - destruct (String.compare (id r) (id x)) eqn:E; cbn in Hy.
    + destruct Hy as [<- | Hy]; [ reflexivity | exfalso ].
      pose proof (ascending_head _ _ _ Hs Hy) as H1.
      apply String.compare_eq_iff in E. rewrite <- E, <- Hid, compare_refl in H1.
      discriminate.
    + destruct Hy as [<- | [<- | Hy]]; [ reflexivity | exfalso | exfalso ].
      * rewrite Hid, compare_refl in E. discriminate.
      * pose proof (compare_lt_trans _ _ _ E (ascending_head _ _ _ Hs Hy)) as H1.
        rewrite Hid, compare_refl in H1. discriminate.
    + destruct Hy as [<- | Hy].
      * exfalso. rewrite Hid, compare_refl in E. discriminate.
      * inversion Hs; subst. auto.
Qed.

Lemma store_put_Forall (P : OfflineData -> Prop) (s : Store) (r : OfflineData) :
  P r -> Forall P s -> Forall P (store_put s r).
Proof.
  intros Hr Hs. apply List.Forall_forall. intros y Hy.
  destruct (store_put_from _ _ _ Hy) as [-> | H]; [ exact Hr | ].
  rewrite List.Forall_forall in Hs. auto.
Qed.

Lemma store_put_ascending (s : Store) (r : OfflineData) :
  ids_ascending s -> ids_ascending (store_put s r).
Proof.
  unfold ids_ascending.
  induction s as [| x rest IH]; cbn; intros Hs; [ repeat constructor | ].
  inversion Hs as [| ? ? Hrest Hx]; subst.
  destruct (String.compare (id r) (id x)) eqn:E.
  - constructor; [ exact Hrest | ].
    apply String.compare_eq_iff in E. rewrite E. exact Hx.
  - constructor; [ exact Hs | ]. constructor; [ exact E | ].
    eapply List.Forall_impl; [ | exact Hx ].
    intros y Hy. eapply compare_lt_trans; eassumption.
  - constructor; [ auto | ].
    apply store_put_Forall; [ now apply compare_gt_lt | exact Hx ].
Qed.


(** *** What deliveries leave behind *)

Lemma syncDataItem_storage (fetch : Network) (c : State) (item : OfflineData) :
  storage (snd (syncDataItem fetch c item)) =
  if delivered fetch item && db c then
    {| offlineData := store_put (offlineData (storage c)) (markSynced item);
       pendingSyncStore := store_delete (pendingSyncStore (storage c)) (id item) |}
  else storage c.
Proof.
  unfold syncDataItem, delivered. cbv zeta.
  destruct (fetch (request_of item)) as [[|] |]; cbn [andb db send];
    [ destruct (db c) | | ]; reflexivity.
Qed.

Lemma syncDataItem_flags (fetch : Network) (c : State) (item : OfflineData) :
  let c' := snd (syncDataItem fetch c item) in
  navigatorOnLine c' = navigatorOnLine c /\ isOnline c' = isOnline c /\
  forceOffline c' = forceOffline c /\ db c' = db c.
Proof.
  unfold syncDataItem. cbv zeta.
  destruct (fetch (request_of item)) as [[|] |]; cbn [db send];
    [ destruct (db c) eqn:E | | ]; cbn; rewrite ?E; auto.
Qed.

Lemma syncAll_flags (fetch : Network) (items : list OfflineData) (c : State) :
  let c' := snd (syncAll fetch c items) in
  navigatorOnLine c' = navigatorOnLine c /\ isOnline c' = isOnline c /\
  forceOffline c' = forceOffline c /\ db c' = db c.
Proof.
  revert c. induction items as [| item rest IH]; intros c; [ cbn; auto | ].
  cbn [syncAll].
  pose proof (syncDataItem_flags fetch c item) as H1.
  destruct (syncDataItem fetch c item) as [ok c1]. cbn [snd] in H1.
  specialize (IH c1).
  destruct (syncAll fetch c1 rest) as [results c2]. cbn [snd] in *.
  intuition congruence.
Qed.

Lemma syncPendingData_flags (fetch : Network) (c : State) :
  let c' := syncPendingData fetch c in
  navigatorOnLine c' = navigatorOnLine c /\ isOnline c' = isOnline c /\
  forceOffline c' = forceOffline c /\ db c' = db c.
Proof.
  unfold syncPendingData.
  destruct (negb (isOnline c) || negb (db c) || (length (pendingSync c) =? 0)%nat);
    [ cbn; auto | ].
  pose proof (syncAll_flags fetch (pendingSync c) c) as H.
  destruct (syncAll fetch c (pendingSync c)) as [results c1]. exact H.
Qed.

Lemma saveOfflineData_flags (fetch : Network) (c : State) (ty : string)
    (d : Server.json) (now_id : Z) (rnd : string) (now : Z) :
  let c' := saveOfflineData fetch c ty d now_id rnd now in
  navigatorOnLine c' = navigatorOnLine c /\ isOnline c' = isOnline c /\
  forceOffline c' = forceOffline c /\ db c' = db c.
Proof.
  unfold saveOfflineData. cbv zeta.
  destruct (db c) eqn:Hdb; cbn [negb]; [ | auto ].
  destruct (store_add (offlineData (storage c)) _) as [store1 |]; [ | auto ].
  cbn [isOnline setStorage storage pendingSyncStore offlineData].
  destruct (isOnline c) eqn:Hon; cbn [negb].
  - match goal with |- context [syncDataItem fetch ?c1 ?it] =>
      pose proof (syncDataItem_flags fetch c1 it) as H end.
    cbn in H. intuition congruence.
  - destruct (store_add (pendingSyncStore (storage c)) _); cbn; auto.
Qed.

Lemma run_effective (online opened : bool) (ops : list Op) :
  isOnline (run (first_visit online opened) ops)
  = navigatorOnLine (run (first_visit online opened) ops)
    && negb (forceOffline (run (first_visit online opened) ops)).
Proof.
  assert (Hgen : forall c, isOnline c = navigatorOnLine c && negb (forceOffline c) ->
                 isOnline (run c ops) =
                 navigatorOnLine (run c ops) && negb (forceOffline (run c ops))).
  { unfold run. induction ops as [| op ops IH]; intros c H; [ exact H | ].
    cbn [fold_left]. apply IH.
    destruct op as [fetch ty d now_id rnd now | fetch | now | e | on opn]; cbn [step].
    - destruct (saveOfflineData_flags fetch c ty d now_id rnd now) as (-> & -> & -> & _).
      exact H.
    - destruct (syncPendingData_flags fetch c) as (-> & -> & -> & _). exact H.
    - unfold clearSyncedData. destruct (db c); exact H.
    - now apply onEvent_effective.
    - unfold initDB, mount. destruct opn; cbn; now rewrite andb_true_r. }
  apply Hgen. unfold first_visit, initDB, mount.
  destruct opened; cbn; now rewrite andb_true_r.
Qed.

(** Through every run of the provider, [isOnline] is what the browser
    reports unless the user has forced the provider offline: the flag the
    pages read is [navigator.onLine && !forceOffline] after every call,
    event and page load. *)
Theorem isOnline_is_effective (online opened : bool) (ops : list Op) :
  let c := run (first_visit online opened) ops in
  isOnline c = navigatorOnLine c && negb (forceOffline c).
Proof.
  cbv zeta. apply run_effective.
Qed.


(** *** The offline store only grows *)

Lemma survives_self (x : OfflineData) (s : Store) : In x s -> survives x s.
Proof. intros H. exists x. auto. Qed.

Lemma survives_trans (x : OfflineData) (s s' : Store) :
  survives x s -> (forall z, In z s -> survives z s') -> survives x s'.
Proof.
  intros (y & Hy & Hid & Hs) H.
  destruct (H y Hy) as (z & Hz & Hid' & Hs').
  exists z. split; [ exact Hz | ]. split; [ congruence | auto ].
Qed.

Lemma syncDataItem_survives (fetch : Network) (c : State) (item x : OfflineData) :
  In x (offlineData (storage c)) ->
  survives x (offlineData (storage (snd (syncDataItem fetch c item)))).
Proof.
  intros Hx. rewrite syncDataItem_storage.
  destruct (delivered fetch item && db c); [ | now apply survives_self ].
  cbn [offlineData].
  destruct (store_put_keeps _ (markSynced item) _ Hx) as [H | H].
  - now apply survives_self.
  - exists (markSynced item). split; [ apply store_put_In | ]. split; [ now rewrite H | ].
    reflexivity.
Qed.

Lemma syncAll_survives (fetch : Network) (items : list OfflineData) (c : State)
    (x : OfflineData) :
  In x (offlineData (storage c)) ->
  survives x (offlineData (storage (snd (syncAll fetch c items)))).
Proof.
  revert c x. induction items as [| item rest IH]; intros c x Hx;
    [ now apply survives_self | ].
  cbn [syncAll].
  pose proof (syncDataItem_survives fetch c item x Hx) as H1.
  destruct (syncDataItem fetch c item) as [ok c1]. cbn [snd] in H1.
  pose proof (fun z => IH c1 z) as IH1.
  destruct (syncAll fetch c1 rest) as [results c2]. cbn [snd] in *.
  eapply survives_trans; eauto.
Qed.

Lemma step_survives (op : Op) (c : State) (x : OfflineData) :
  In x (offlineData (storage c)) ->
  survives x (offlineData (storage (step c op))).
Proof.
  intros Hx.
  destruct op as [fetch ty d now_id rnd now | fetch | now | e | on opn]; cbn [step].
  - unfold saveOfflineData. cbv zeta.
    destruct (db c); cbn [negb]; [ | now apply survives_self ].
    destruct (store_add (offlineData (storage c)) _) as [store1 |] eqn:Hadd;
      [ | now apply survives_self ].
    assert (Hx1 : In x store1) by (apply (store_add_keeps _ _ _ x Hadd); now right).
    cbn [isOnline setStorage storage pendingSyncStore offlineData].
    destruct (isOnline c); cbn [negb].
    + apply syncDataItem_survives. exact Hx1.
    + destruct (store_add (pendingSyncStore (storage c)) _); now apply survives_self.
  - unfold syncPendingData.
    destruct (negb (isOnline c) || negb (db c) || (length (pendingSync c) =? 0)%nat);
      [ now apply survives_self | ].
    pose proof (syncAll_survives fetch (pendingSync c) c x Hx) as H.
    destruct (syncAll fetch c (pendingSync c)) as [results c1]. exact H.
  - unfold clearSyncedData. destruct (db c); now apply survives_self.
  - apply survives_self.
    destruct e as [| | opened]; cbn [onEvent];
      [ unfold handleOnline; cbn [forceOffline setNavigatorOnLine]
      | unfold handleOffline
      | unfold initDB, toggleOnlineMode; destruct opened ];
      try destruct (forceOffline c); exact Hx.
  - apply survives_self. unfold initDB. destruct opn; exact Hx.
Qed.

(** Nothing the provider does, pruning included, ever takes a record out
    of the offline store or turns a synced record back into an unsynced
    one: a record that is there stays there under its id, across calls,
    events and page loads, and once synced it stays synced. *)
Theorem offline_store_only_grows (ops : list Op) (c : State) (x : OfflineData) :
  In x (offlineData (storage c)) ->
  survives x (offlineData (storage (run c ops))).
Proof.
  unfold run. revert c x. induction ops as [| op ops IH]; intros c x Hx;
    [ now apply survives_self | ].
  cbn [fold_left].
  eapply survives_trans; [ apply (step_survives op c x Hx) | ].
  intros z Hz. apply IH. exact Hz.
Qed.

Lemma offline_store_only_grows_witness :
  survives old_synced
    (offlineData (storage (run with_old_synced
       [Prune eight_days; Drain reliable; Reload true true; Prune eight_days]))).
Proof.
  apply offline_store_only_grows. now left.
Defined.


(** *** What a drain achieves *)

Lemma syncDataItem_absent (fetch : Network) (c : State) (item : OfflineData) (k : string) :
  (forall r, In r (pendingSyncStore (storage c)) -> id r <> k) ->
  forall r, In r (pendingSyncStore (storage (snd (syncDataItem fetch c item)))) -> id r <> k.
Proof.
  intros H r. rewrite syncDataItem_storage.
  destruct (delivered fetch item && db c); cbn [pendingSyncStore]; [ | apply H ].
  intros Hr. apply store_delete_In in Hr as [Hr _]. now apply H.
Qed.

Lemma syncAll_absent (fetch : Network) (items : list OfflineData) (c : State) (k : string) :
  (forall r, In r (pendingSyncStore (storage c)) -> id r <> k) ->
  forall r, In r (pendingSyncStore (storage (snd (syncAll fetch c items)))) -> id r <> k.
Proof.
  revert c. induction items as [| item rest IH]; intros c H; [ exact H | ].
  cbn [syncAll].
  pose proof (syncDataItem_absent fetch c item k H) as H1.
  destruct (syncDataItem fetch c item) as [ok c1]. cbn [snd] in H1.
  specialize (IH c1 H1).
  destruct (syncAll fetch c1 rest) as [results c2]. exact IH.
Qed.

Lemma syncAll_marks (fetch : Network) (items : list OfflineData) (c : State)
    (item : OfflineData) :
  db c = true -> In item items -> delivered fetch item = true ->
  let c' := snd (syncAll fetch c items) in
  survives (markSynced item) (offlineData (storage c')) /\
  (forall r, In r (pendingSyncStore (storage c')) -> id r <> id item).
Proof.
  revert c. induction items as [| x rest IH]; intros c Hdb Hin Hd; [ destruct Hin | ].
  cbn [syncAll].
  pose proof (syncDataItem_storage fetch c x) as Hst.
  pose proof (syncDataItem_flags fetch c x) as (_ & _ & _ & Hdb1).
  destruct (syncDataItem fetch c x) as [ok c1] eqn:E. cbn [snd] in *.
  destruct Hin as [-> | Hin].
  - rewrite Hd, Hdb in Hst. cbn [andb] in Hst.
    pose proof (syncAll_survives fetch rest c1 (markSynced item)) as Hs.
    pose proof (syncAll_absent fetch rest c1 (id item)) as Ha.
    destruct (syncAll fetch c1 rest) as [results c2]. cbn [snd] in *.
    split.
    + apply Hs. rewrite Hst. cbn. apply store_put_In.
    + apply Ha. intros r Hr. rewrite Hst in Hr. cbn in Hr.
      now apply store_delete_In in Hr as [_ Hr].
  - specialize (IH c1 (eq_trans Hdb1 Hdb) Hin Hd).
    destruct (syncAll fetch c1 rest) as [results c2]. exact IH.
Qed.

(** A drain, record by record. A record whose request gets a 2xx answer
    leaves the pending list and the pending store and is in the offline
    store marked synced; one whose request fails stays in the pending list.
    If every request succeeds the pending list ends empty. *)
Theorem drain_outcome (fetch : Network) (c : State) :
  guards_pass c ->
  let c' := syncPendingData fetch c in
  (forall item, In item (pendingSync c) -> delivered fetch item = true ->
     ~ In item (pendingSync c') /\
     (forall r, In r (pendingSyncStore (storage c')) -> id r <> id item) /\
     exists r, In r (offlineData (storage c')) /\ id r = id item /\ synced r = true) /\
  (forall item, In item (pendingSync c) -> delivered fetch item = false ->
     In item (pendingSync c')) /\
  ((forall item, In item (pendingSync c) -> delivered fetch item = true) ->
   pendingSync c' = []).
Proof.
  intros Hg c'.
  destruct (syncPendingData_spec fetch c Hg) as [_ Hp].
  fold c' in Hp.
  split; [ | split ].
  - intros item Hin Hd. split; [ | ].
    { rewrite Hp, List.filter_In, Hd. intros [_ H]. discriminate. }
    destruct Hg as (Hon & Hdb & Hne).
    pose proof (syncAll_marks fetch (pendingSync c) c item Hdb Hin Hd) as Hm.
    subst c'. unfold syncPendingData. rewrite Hon, Hdb.
    destruct (pendingSync c) as [| p ps] eqn:Ep; [ congruence | ].
    cbn [negb orb length Nat.eqb].
    destruct (syncAll fetch c (p :: ps)) as [results c1]. cbn [snd] in Hm.
    cbn [storage setPendingSync]. destruct Hm as [(y & Hy & Hid & Hs) Ha].
    split; [ exact Ha | ]. exists y. split; [ exact Hy | ]. split; [ exact Hid | ].
    apply Hs. reflexivity.
  - intros item Hin Hd. rewrite Hp, List.filter_In, Hd. auto.
  - intros Hall. rewrite Hp. clear Hp. revert Hall.
    generalize (pendingSync c). intros l.
    induction l as [| x l IH]; intros Hall; [ reflexivity | ].
    cbn. rewrite (Hall x (or_introl eq_refl)). cbn.
    apply IH. intros item Hi. apply Hall. now right.
Qed.

Lemma drain_outcome_witness :
  pendingSync (syncPendingData reliable reloaded_online) = [] /\
  pendingSyncStore (storage (syncPendingData reliable reloaded_online)) = [] /\
  map synced (offlineData (storage (syncPendingData reliable reloaded_online)))
    = [true; true].
Proof.
  split; [ | split; reflexivity ].
  refine (proj2 (proj2 (drain_outcome reliable reloaded_online _)) _).
  - repeat split. discriminate.
  - intros item _. reflexivity.
Defined.


(** *** Saving and reading back *)

Lemma getOfflineData_In (c : State) (ty : string) (y : OfflineData) :
  In y (getOfflineData c ty) <->
  db c = true /\ In y (offlineData (storage c)) /\ type y = ty.
Proof.
  unfold getOfflineData, index_getAll.
  destruct (db c); cbn [negb].
  - rewrite List.filter_In. cbn [toKey key_eqb]. rewrite String.eqb_eq. tauto.
  - cbn. intuition discriminate.
Qed.

(** Saving a record and reading it back. With the database open and the
    offline store in key order: if the generated id is already taken the
    call changes nothing; otherwise [getOfflineData] of the record's type
    returns it, with the type, data and timestamp given, marked synced
    exactly when the provider was online and the request got a 2xx answer,
    and no other record of the store has its id. An online save sends one
    request and does not touch the pending list. *)
Theorem save_then_read (fetch : Network) (c : State) (ty : string)
    (d : Server.json) (now_id : Z) (rnd : string) (now : Z) :
  db c = true -> ids_ascending (offlineData (storage c)) ->
  let item := {| id := ty +:+ "_" +:+ dec now_id +:+ "_" +:+ rnd; type := ty;
                 data := d; timestamp := now; synced := false |} in
  let c' := saveOfflineData fetch c ty d now_id rnd now in
  match store_add (offlineData (storage c)) item with
  | None => c' = c
  | Some _ =>
      (exists y, In y (getOfflineData c' ty) /\ same_record item y /\
                 synced y = isOnline c && delivered fetch item /\
                 forall z, In z (offlineData (storage c')) -> id z = id item -> z = y) /\
      (isOnline c = true ->
       pendingSync c' = pendingSync c /\ requests c' = requests c ++ [request_of item])
  end.
Proof.
  intros Hdb Hasc item c'.
  pose proof (saveOfflineData_flags fetch c ty d now_id rnd now) as (_ & _ & _ & Hdb').
  fold c' in Hdb'.
  subst c'. unfold saveOfflineData in *. rewrite Hdb in *. cbn [negb] in *.
  cbv zeta in *. fold item in Hdb' |- *.
  destruct (store_add (offlineData (storage c)) item) as [store1 |] eqn:Hadd;
    [ | reflexivity ].
  pose proof (store_add_ascending _ _ _ Hasc Hadd) as Hasc1.
  assert (Hfresh : forall z, In z store1 -> id z = id item -> z = item).
  { intros z Hz Hid. apply (store_add_keeps _ _ _ z Hadd) in Hz as [-> | Hz];
      [ reflexivity | ].
    exfalso. exact (store_add_fresh _ _ _ z Hasc Hadd Hz Hid). }
  cbn [isOnline setStorage storage pendingSyncStore offlineData] in *.
  destruct (isOnline c) eqn:Hon; cbn [negb andb] in *.
  - match goal with |- context [syncDataItem fetch ?st item] => set (c1 := st) in * end.
    pose proof (syncDataItem_storage fetch c1 item) as Hst.
    pose proof (syncDataItem_frame fetch c1 item) as (Hrq & Hp & _ & _).
    cbv zeta in Hrq, Hp.
    change (db c1) with (db c) in Hst. rewrite Hdb, andb_true_r in Hst.
    split; [ | intros _; split; [ exact Hp | exact Hrq ] ].
    destruct (delivered fetch item) eqn:Hd.
    + exists (markSynced item). split; [ | split; [ | split ] ].
      * apply getOfflineData_In. rewrite Hst. cbn. split; [ exact Hdb' | ].
        split; [ apply store_put_In | reflexivity ].
      * repeat split.
      * reflexivity.
      * rewrite Hst. cbn. intros z Hz Hid.
        apply (store_put_only store1 (markSynced item) z Hasc1 Hz). exact Hid.
    + exists item. split; [ | split; [ | split ] ].
      * apply getOfflineData_In. rewrite Hst. cbn. split; [ exact Hdb' | ].
        split; [ apply (store_add_keeps _ _ _ item Hadd); now left | reflexivity ].
      * repeat split.
      * reflexivity.
      * rewrite Hst. cbn. exact Hfresh.
  - split; [ | discriminate ].
    exists item. split; [ | split; [ | split ] ].
    + apply getOfflineData_In. split; [ exact Hdb' | ].
      split; [ | reflexivity ].
      destruct (store_add (pendingSyncStore (storage c)) item); cbn;
        apply (store_add_keeps _ _ _ item Hadd); now left.
    + repeat split.
    + reflexivity.
    + destruct (store_add (pendingSyncStore (storage c)) item); cbn; exact Hfresh.
Qed.

Lemma save_then_read_witness :
  map synced (getOfflineData
                (saveOfflineData reliable online_idle "diagnosis" some_data 500
                                 "q1w2e3r4t" 500) "diagnosis") = [true] /\
  exists y,
    In y (getOfflineData
            (saveOfflineData unreachable online_idle "diagnosis" some_data 500
                             "q1w2e3r4t" 500) "diagnosis") /\
    synced y = false.
Proof.
  split; [ reflexivity | ].
  pose proof (save_then_read unreachable online_idle "diagnosis" some_data 500
                "q1w2e3r4t" 500 eq_refl) as H.
  cbv zeta in H.
  assert (Ha : ids_ascending (offlineData (storage online_idle))) by constructor.
  specialize (H Ha).
  change (store_add (offlineData (storage online_idle))
            {| id := "diagnosis" +:+ "_" +:+ dec 500 +:+ "_" +:+ "q1w2e3r4t";
               type := "diagnosis"; data := some_data; timestamp := 500;
               synced := false |})
    with (Some [{| id := "diagnosis_500_q1w2e3r4t"; type := "diagnosis";
                   data := some_data; timestamp := 500; synced := false |}]) in H.
  destruct H as [(y & Hy & _ & Hs & _) _].
  exists y. split; [ exact Hy | exact Hs ].
Defined.


(** *** The service worker *)

Lemma ascending_unique (s : Store) (a b : OfflineData) :
  ids_ascending s -> In a s -> In b s -> id a = id b -> a = b.
Proof.
  induction s as [| x rest IH]; intros Hs Ha Hb Hid; [ destruct Ha | ].
  destruct Ha as [<- | Ha], Hb as [<- | Hb].
  - reflexivity.
  - pose proof (ascending_head _ _ _ Hs Hb) as H. rewrite Hid, compare_refl in H.
    discriminate.
  - pose proof (ascending_head _ _ _ Hs Ha) as H. rewrite Hid, compare_refl in H.
    discriminate.
  - inversion Hs; subst. auto.
Qed.

Lemma filter_filter {A} (f g : A -> bool) (l : list A) :
  List.filter f (List.filter g l) = List.filter (fun x => g x && f x) l.
Proof.
  induction l as [| x l IH]; [ reflexivity | ].
  cbn. destruct (g x); cbn; [ destruct (f x) | ]; now rewrite IH.
Qed.

(** Deleting, one after the other, the ids of the records of [items] that
    pass [f] is one filter on the store. *)
Lemma fold_delete (f : OfflineData -> bool) (items : list OfflineData) (s : Store) :
  fold_left (fun st item => if f item then store_delete st (id item) else st) items s
  = List.filter
      (fun x => negb (existsb (fun item => f item && String.eqb (id x) (id item)) items)) s.
Proof.
  revert s. induction items as [| item rest IH]; intros s; cbn [fold_left existsb].
  - cbn. induction s as [| x s IHs]; [ reflexivity | cbn; now rewrite <- IHs ].
  - rewrite IH. destruct (f item); cbn [andb orb].
    + unfold store_delete. rewrite filter_filter.
      apply List.filter_ext. intros x. now rewrite negb_orb.
    + reflexivity.
Qed.

Lemma existsb_self (f : OfflineData -> bool) (s : Store) (x : OfflineData) :
  ids_ascending s -> In x s ->
  existsb (fun item => f item && String.eqb (id x) (id item)) s = f x.
Proof.
  intros Hs Hx. destruct (f x) eqn:E.
  - apply existsb_exists. exists x. rewrite E, String.eqb_refl. auto.
  - destruct (existsb _ s) eqn:Ex; [ | reflexivity ].
    apply existsb_exists in Ex as (y & Hy & H).
    apply andb_true_iff in H as [Hf Hid]. apply String.eqb_eq in Hid.
    rewrite (ascending_unique s x y Hs Hx Hy Hid) in E. congruence.
Qed.

Lemma doBackgroundSync_fold (fetch : WorkerRequest -> WorkerFetchResult)
    (items : list OfflineData) (st : IDB) :
  fold_left (fun st item =>
               if worker_delivered fetch item then
                 {| offlineData := offlineData st;
                    pendingSyncStore := store_delete (pendingSyncStore st) (id item) |}
               else st) items st
  = {| offlineData := offlineData st;
       pendingSyncStore :=
         fold_left (fun s item => if worker_delivered fetch item
                                  then store_delete s (id item) else s)
                   items (pendingSyncStore st) |}.
Proof.
  revert st. induction items as [| item rest IH]; intros st; cbn [fold_left].
  - destruct st; reflexivity.
  - rewrite IH. destruct (worker_delivered fetch item); reflexivity.
Qed.

(** The worker's background sync, on a pending store in key order: it
    takes out of the pending store exactly the records whose request was
    answered 2xx with a JSON body, and never writes the offline store, so a
    record it delivers is no longer pending and still unsynced there. Its
    requests carry no [Authorization] header; against a server that
    refuses those, as the [auth] middleware does with a 401, it changes
    nothing. *)
Theorem background_sync_effect (fetch : WorkerRequest -> WorkerFetchResult)
    (browserDb : IDB) :
  ids_ascending (pendingSyncStore browserDb) ->
  let after := doBackgroundSync fetch browserDb in
  offlineData after = offlineData browserDb /\
  pendingSyncStore after
    = List.filter (fun x => negb (worker_delivered fetch x)) (pendingSyncStore browserDb) /\
  (forall verify db item,
     Server.auth verify db (wr_authorization (worker_request_of item))
     = Server.Status401 "Access Denied") /\
  ((forall rq, wr_authorization rq = None ->
               forall j, fetch rq <> WorkerResponse true j) ->
   after = browserDb).
Proof.
  intros Hasc after. subst after. unfold doBackgroundSync. cbv zeta.
  rewrite doBackgroundSync_fold. cbn [offlineData pendingSyncStore].
  rewrite fold_delete.
  assert (Hf : List.filter
                 (fun x => negb (existsb (fun item => worker_delivered fetch item
                                            && String.eqb (id x) (id item))
                                         (pendingSyncStore browserDb)))
                 (pendingSyncStore browserDb)
               = List.filter (fun x => negb (worker_delivered fetch x))
                             (pendingSyncStore browserDb)).
  { apply List.filter_ext_in. intros x Hx. now rewrite existsb_self. }
  rewrite Hf.
  split; [ reflexivity | ]. split; [ reflexivity | ]. split; [ reflexivity | ].
  intros Hrefuse.
  assert (Hnone : forall x, worker_delivered fetch x = false).
  { intros x. unfold worker_delivered.
    destruct (fetch (worker_request_of x)) as [[|] j |] eqn:E; try reflexivity.
    exfalso. exact (Hrefuse (worker_request_of x) eq_refl j E). }
  destruct browserDb as [off pend]. cbn. f_equal. clear Hf Hasc.
  induction pend as [| x l IH]; [ reflexivity | ].
  cbn. rewrite Hnone. cbn. now rewrite IH.
Qed.

Lemma background_sync_effect_witness :
  let delivered_by_worker :=
    doBackgroundSync (fun _ => WorkerResponse true true) (storage offline_session) in
  pendingSyncStore delivered_by_worker = [] /\
  map synced (offlineData delivered_by_worker) = [false; false] /\
  doBackgroundSync (fun _ => WorkerResponse false true) (storage offline_session)
  = storage offline_session.
Proof.
  cbv zeta. split; [ | split; reflexivity ].
  assert (Ha : ids_ascending (pendingSyncStore (storage offline_session))).
  { apply (run_ascending
             [Save unreachable "market" some_data 200 "k3x9q0a1b" 200;
              Save unreachable "diagnosis" some_data 300 "z8y7w6v5u" 300]
             (first_visit false true)).
    constructor. }
  rewrite (proj1 (proj2 (background_sync_effect (fun _ => WorkerResponse true true)
                           (storage offline_session) Ha))).
  reflexivity.
Defined.


(** *** The pending list and the pending store agree *)

Lemma store_delete_id (s : Store) (k : string) :
  (forall r, In r s -> id r <> k) -> store_delete s k = s.
Proof.
  unfold store_delete. induction s as [| x s IH]; intros H; [ reflexivity | ].
  cbn. destruct (String.eqb_spec (id x) k) as [E | E]; cbn.
  - exfalso. exact (H x (or_introl eq_refl) E).
  - rewrite IH; [ reflexivity | ]. intros r Hr. apply H. now right.
Qed.

Lemma store_add_Permutation (s s' : Store) (r : OfflineData) :
  store_add s r = Some s' -> Permutation (r :: s) s'.
Proof.
  revert s'. induction s as [| x rest IH]; cbn; intros s' Hadd.
  - injection Hadd as <-. reflexivity.
  - destruct (String.compare (id r) (id x)); [ discriminate | | ].
    + injection Hadd as <-. reflexivity.
    + destruct (store_add rest r) as [rest' |]; [ | discriminate ].
      injection Hadd as <-. rewrite perm_swap. constructor. now apply IH.
Qed.

Lemma Permutation_List_filter {A} (f : A -> bool) (l l' : list A) :
  Permutation l l' -> Permutation (List.filter f l) (List.filter f l').
Proof.
  induction 1 as [| x l l' _ IH | x y l | l l' l'' _ IH1 _ IH2]; cbn.
  - constructor.
  - destruct (f x); [ now constructor | exact IH ].
  - destruct (f x), (f y); try reflexivity. apply perm_swap.
  - etransitivity; eassumption.
Qed.

Lemma still_pending_filter (fetch : Network) (l : list OfflineData) :
  map fst (List.filter (fun result => negb (snd result))
             (map (fun item => (item, delivered fetch item)) l))
  = List.filter (fun item => negb (delivered fetch item)) l.
Proof.
  induction l as [| x l IH]; [ reflexivity | ].
  cbn. destruct (delivered fetch x); cbn; now rewrite IH.
Qed.

(** The part of [consistent] that concerns the stores alone. *)
Lemma syncDataItem_stores (fetch : Network) (c : State) (item : OfflineData) :
  let st := storage c in
  let st' := storage (snd (syncDataItem fetch c item)) in
  ids_ascending (offlineData st) ->
  (forall r, In r (pendingSyncStore st) -> exists y, In y (offlineData st) /\ id y = id r) ->
  ids_ascending (offlineData st') /\
  (forall r, In r (pendingSyncStore st') -> exists y, In y (offlineData st') /\ id y = id r).
Proof.
  cbv zeta. intros Ha Hk. rewrite syncDataItem_storage.
  destruct (delivered fetch item && db c); cbn [offlineData pendingSyncStore]; [ | auto ].
  split; [ now apply store_put_ascending | ].
  intros r Hr. apply store_delete_In in Hr as [Hr _].
  destruct (Hk r Hr) as (y & Hy & Hid).
  destruct (store_put_keeps _ (markSynced item) _ Hy) as [H | H].
  - eauto.
  - exists (markSynced item). split; [ apply store_put_In | congruence ].
Qed.

Lemma syncAll_stores (fetch : Network) (items : list OfflineData) (c : State) :
  db c = true ->
  let st := storage c in
  let st' := storage (snd (syncAll fetch c items)) in
  ids_ascending (offlineData st) ->
  (forall r, In r (pendingSyncStore st) -> exists y, In y (offlineData st) /\ id y = id r) ->
  ids_ascending (offlineData st') /\
  (forall r, In r (pendingSyncStore st') -> exists y, In y (offlineData st') /\ id y = id r) /\
  pendingSyncStore st'
  = fold_left (fun s item => if delivered fetch item then store_delete s (id item) else s)
              items (pendingSyncStore st).
Proof.
  cbv zeta. revert c. induction items as [| item rest IH]; intros c Hdb Ha Hk;
    [ cbn; auto | ].
  cbn [syncAll fold_left].
  pose proof (syncDataItem_stores fetch c item Ha Hk) as [Ha1 Hk1].
  pose proof (syncDataItem_storage fetch c item) as Hst.
  pose proof (syncDataItem_flags fetch c item) as (_ & _ & _ & Hdb1).
  destruct (syncDataItem fetch c item) as [ok c1]. cbn [snd] in *.
  specialize (IH c1 (eq_trans Hdb1 Hdb) Ha1 Hk1).
  destruct (syncAll fetch c1 rest) as [results c2]. cbn [snd] in *.
  destruct IH as (H1 & H2 & H3). split; [ exact H1 | ]. split; [ exact H2 | ].
  rewrite H3, Hst, Hdb, andb_true_r. destruct (delivered fetch item); reflexivity.
Qed.

Lemma step_consistent (op : Op) (c : State) : consistent c -> consistent (step c op).
Proof.
  intros Hc. pose proof Hc as (Ha & Hp & Hk & Hl).
  destruct op as [fetch ty d now_id rnd now | fetch | now | e | on opn]; cbn [step].
  - (* a save *)
    unfold saveOfflineData. cbv zeta.
    destruct (db c) eqn:Hdb; cbn [negb]; [ | unfold consistent; rewrite Hdb; auto ].
    match goal with |- context [store_add (offlineData (storage c)) ?it] =>
      set (item := it) end.
    destruct (store_add (offlineData (storage c)) item) as [store1 |] eqn:Hadd;
      [ | unfold consistent; rewrite Hdb; auto ].
    pose proof (store_add_ascending _ _ _ Ha Hadd) as Ha1.
    assert (Hk1 : forall r, In r (pendingSyncStore (storage c)) ->
                            exists y, In y store1 /\ id y = id r).
    { intros r Hr. destruct (Hk r Hr) as (y & Hy & Hid). exists y.
      split; [ apply (store_add_keeps _ _ _ y Hadd); now right | exact Hid ]. }
    assert (Hnew : forall r, In r (pendingSyncStore (storage c)) -> id r <> id item).
    { intros r Hr. destruct (Hk r Hr) as (y & Hy & Hid). rewrite <- Hid.
      exact (store_add_fresh _ _ _ y Ha Hadd Hy). }
    cbn [isOnline setStorage storage pendingSyncStore offlineData].
    destruct (isOnline c); cbn [negb].
    + match goal with |- context [syncDataItem fetch ?st item] => set (c1 := st) end.
      pose proof (syncDataItem_stores fetch c1 item Ha1 Hk1) as [Ha2 Hk2].
      pose proof (syncDataItem_ascending fetch c1 item Hp) as Hp2.
      pose proof (syncDataItem_storage fetch c1 item) as Hst.
      pose proof (syncDataItem_frame fetch c1 item) as (_ & Hps & _ & Hdb2).
      cbv zeta in Hps, Hdb2.
      unfold consistent. rewrite Hdb2. change (db c1) with (db c). rewrite Hdb.
      split; [ exact Ha2 | ]. split; [ exact Hp2 | ]. split; [ exact Hk2 | ].
      rewrite Hps. change (pendingSync c1) with (pendingSync c).
      rewrite Hst. change (db c1) with (db c). rewrite Hdb, andb_true_r.
      destruct (delivered fetch item); cbn [pendingSyncStore]; [ | exact Hl ].
      change (pendingSyncStore (storage c1)) with (pendingSyncStore (storage c)).
      rewrite store_delete_id by exact Hnew. exact Hl.
    + destruct (store_add (pendingSyncStore (storage c)) item) as [store2 |] eqn:Hadd2.
      * unfold consistent. cbn. rewrite Hdb.
        split; [ exact Ha1 | ].
        split; [ exact (store_add_ascending _ _ _ Hp Hadd2) | ].
        split.
        -- intros r Hr. apply (store_add_keeps _ _ _ r Hadd2) in Hr as [-> | Hr].
           ++ exists item. split; [ apply (store_add_keeps _ _ _ item Hadd); now left | ].
              reflexivity.
           ++ auto.
        -- rewrite <- (store_add_Permutation _ _ _ Hadd2).
           rewrite <- Permutation_cons_append. now constructor.
      * unfold consistent. cbn. rewrite Hdb. auto.
  - (* a drain *)
    unfold syncPendingData.
    destruct (isOnline c); cbn [negb orb]; [ | now repeat split ].
    destruct (db c) eqn:Hdb; cbn [negb orb]; [ | unfold consistent; rewrite Hdb; auto ].
    destruct (pendingSync c) as [| p ps] eqn:Ep; cbn [length Nat.eqb];
      [ unfold consistent; rewrite Hdb, Ep; auto | ].
    rewrite <- Ep in *. clear Ep p ps.
    pose proof (syncAll_stores fetch (pendingSync c) c Hdb Ha Hk) as (Ha1 & Hk1 & Hst).
    pose proof (syncAll_ascending fetch (pendingSync c) c Hp) as Hp1.
    pose proof (syncAll_flags fetch (pendingSync c) c) as (_ & _ & _ & Hdb1).
    pose proof (syncAll_spec fetch (pendingSync c) c) as [Hres _].
    destruct (syncAll fetch c (pendingSync c)) as [results c1]. cbn [fst snd] in *.
    unfold consistent. cbn [storage db pendingSync setPendingSync].
    rewrite Hdb1, Hdb. split; [ exact Ha1 | ]. split; [ exact Hp1 | ].
    split; [ exact Hk1 | ].
    rewrite Hst, fold_delete, Hres.
    assert (Hmap : map fst (List.filter (fun result => negb (snd result))
                     (map (fun item => (item, delivered fetch item)) (pendingSync c)))
                   = List.filter (fun item => negb (delivered fetch item)) (pendingSync c)).
    { apply still_pending_filter. }
    rewrite Hmap.
    rewrite (Permutation_List_filter _ _ _ Hl).
    assert (Hext : List.filter (fun x => negb (delivered fetch x))
                     (pendingSyncStore (storage c))
                   = List.filter
                       (fun x => negb (existsb (fun item => delivered fetch item
                                                   && String.eqb (id x) (id item))
                                               (pendingSync c)))
                       (pendingSyncStore (storage c))).
    { apply List.filter_ext_in. intros x Hx. f_equal.
      destruct (delivered fetch x) eqn:E; symmetry.
      - apply existsb_exists. exists x. rewrite E, String.eqb_refl.
        split; [ | reflexivity ]. eapply Permutation_in; [ symmetry; exact Hl | exact Hx ].
      - destruct (existsb _ (pendingSync c)) eqn:Ex; [ | reflexivity ].
        apply existsb_exists in Ex as (y & Hy & H).
        apply andb_true_iff in H as [Hf Hid]. apply String.eqb_eq in Hid.
        assert (Hy' : In y (pendingSyncStore (storage c)))
          by (eapply Permutation_in; eassumption).
        rewrite (ascending_unique _ x y Hp Hx Hy' Hid) in E. congruence. }
    rewrite Hext. reflexivity.
  - (* a prune *)
    replace (clearSyncedData c now) with c
      by (unfold clearSyncedData; destruct (db c); reflexivity).
    exact Hc.
  - (* a connectivity event *)
    destruct e as [| | opened]; cbn [onEvent];
      [ unfold handleOnline; cbn [forceOffline setNavigatorOnLine]
        | unfold handleOffline | ];
      try (destruct (forceOffline c); exact Hc).
    unfold initDB, toggleOnlineMode, consistent.
    destruct opened, (forceOffline c); cbn; auto.
  - (* a page load *)
    unfold initDB, mount. destruct opn; unfold consistent; cbn; auto.
Qed.

(** From the first visit on, whatever the provider is asked to do: both
    stores stay in key order, every record of the pending store is also in
    the offline store, and while the provider holds the database its
    pending list is a rearrangement of the pending store; without the
    database the list is empty. *)
Theorem provider_stays_consistent (online opened : bool) (ops : list Op) :
  consistent (run (first_visit online opened) ops).
Proof.
  assert (Hgen : forall c, consistent c -> consistent (run c ops)).
  { unfold run. induction ops as [| op ops IH]; intros c H; [ exact H | ].
    cbn [fold_left]. apply IH. now apply step_consistent. }
  apply Hgen. unfold first_visit, initDB, mount, consistent.
  destruct opened; cbn; repeat split; try constructor; intros r [].
Qed.


(** *** Forced offline *)

(** While the user keeps the provider forced offline, no call sends a
    request: a save only stores the record, and a drain does nothing, even
    when the browser itself is online. *)
Theorem forced_offline_sends_nothing (online opened : bool) (ops : list Op)
    (fetch : Network) (ty : string) (d : Server.json) (now_id : Z) (rnd : string)
    (now : Z) :
  let c := run (first_visit online opened) ops in
  forceOffline c = true ->
  isOnline c = false /\
  requests (step c (Save fetch ty d now_id rnd now)) = requests c /\
  step c (Drain fetch) = c /\
  step c (Prune now) = c.
Proof.
  intros c Hforce.
  pose proof (run_effective online opened ops) as Heff.
  fold c in Heff. rewrite Hforce, andb_false_r in Heff.
  split; [ exact Heff | ]. split; [ | split ].
  - cbn [step]. unfold saveOfflineData. cbv zeta.
    destruct (db c); cbn [negb]; [ | reflexivity ].
    destruct (store_add (offlineData (storage c)) _); [ | reflexivity ].
    cbn [isOnline setStorage storage pendingSyncStore offlineData]. rewrite Heff.
    cbn [negb]. destruct (store_add (pendingSyncStore (storage c)) _); reflexivity.
  - cbn [step]. unfold syncPendingData. rewrite Heff. reflexivity.
  - cbn [step]. unfold clearSyncedData. destruct (db c); reflexivity.
Qed.

Lemma forced_offline_sends_nothing_witness :
  let c := run (first_visit true true) [Connectivity (Toggle true)] in
  navigatorOnLine c = true /\ isOnline c = false /\
  requests (step c (Save reliable "diagnosis" some_data 500 "q1w2e3r4t" 500)) = [] /\
  map timestamp
      (pendingSync (step c (Save reliable "diagnosis" some_data 500 "q1w2e3r4t" 500)))
  = [500%Z].
Proof.
  cbv zeta. split; [ reflexivity | ].
  destruct (forced_offline_sends_nothing true true [Connectivity (Toggle true)] reliable
              "diagnosis" some_data 500 "q1w2e3r4t" 500 eq_refl) as (H1 & H2 & _).
  split; [ exact H1 | ]. split; [ exact H2 | reflexivity ].
Defined.

End ClientFacts.
